(** * Item catalogue web service ([app.py]): model and verified properties

    The development follows the layout of the program: Python's built-in
    numbers and text first, then the domain model ([Item], [Inventory]),
    the functional helpers, the simulated pricing service and finally the
    Flask routes, which are state transformers over the process state (the
    id sequence and the inventory). *)

From Stdlib Require Import ZArith List String Ascii Bool Lia Floats Sorted.
Import ListNotations.

Set Warnings "-inexact-float,-register-all".
Local Open Scope Z_scope.

(** ** Python text

    Text is modelled by [string]; the case mapping and the whitespace
    classes are those of Python on ASCII text. *)
Module PyStr.

Definition lower_char (c : ascii) : ascii :=
  let n := nat_of_ascii c in
  if (65 <=? n)%nat && (n <=? 90)%nat then ascii_of_nat (n + 32) else c.

(** [s.lower()] on ASCII text: the letters A to Z are mapped to a to z,
    every other character is kept. *)
Fixpoint lower (s : string) : string :=
  match s with
  | EmptyString => EmptyString
  | String c s' => String (lower_char c) (lower s')
  end.

(** The ASCII characters removed by [str.strip()]: tab, line feed,
    vertical tab, form feed, carriage return, the four separators 28-31
    and space. *)
Definition is_space (c : ascii) : bool :=
  let n := nat_of_ascii c in
  ((9 <=? n)%nat && (n <=? 13)%nat) || ((28 <=? n)%nat && (n <=? 32)%nat).

Fixpoint lstrip_by (sp : ascii -> bool) (s : string) : string :=
  match s with
  | EmptyString => EmptyString
  | String c s' => if sp c then lstrip_by sp s' else s
  end.

Fixpoint rstrip_by (sp : ascii -> bool) (s : string) : string :=
  match s with
  | EmptyString => EmptyString
  | String c s' =>
      match rstrip_by sp s' with
      | EmptyString => if sp c then EmptyString else String c EmptyString
      | r => String c r
      end
  end.

(** [s.strip()] on ASCII text. *)
Definition strip (s : string) : string :=
  rstrip_by is_space (lstrip_by is_space s).

Fixpoint all_space (s : string) : bool :=
  match s with
  | EmptyString => true
  | String c s' => is_space c && all_space s'
  end.

Definition starts_with_space (s : string) : bool :=
  match s with
  | EmptyString => false
  | String c _ => is_space c
  end.

Fixpoint ends_with_space (s : string) : bool :=
  match s with
  | EmptyString => false
  | String c EmptyString => is_space c
  | String _ s' => ends_with_space s'
  end.

(** Equality of two texts up to the case of their letters, character by
    character: the reading of "case-insensitive match" that [lower] is
    compared with. *)
Definition is_upper (c : ascii) : bool :=
  let n := nat_of_ascii c in (65 <=? n)%nat && (n <=? 90)%nat.

Definition same_letter (a b : ascii) : bool :=
  Ascii.eqb a b
  || (is_upper a && (nat_of_ascii b =? nat_of_ascii a + 32)%nat)
  || (is_upper b && (nat_of_ascii a =? nat_of_ascii b + 32)%nat).

Fixpoint equal_ignoring_case (s t : string) : bool :=
  match s, t with
  | EmptyString, EmptyString => true
  | String a s', String b t' => same_letter a b && equal_ignoring_case s' t'
  | _, _ => false
  end.

Definition all_ascii : list ascii := map ascii_of_nat (seq 0 256).

(** Whether a text is ASCII.  On ASCII text [lower], [strip] and the
    number syntax read by [float] are Python's.  Beyond ASCII the Unicode
    database decides (case pairs, further whitespace and digits); it is
    not embedded, and a statement that depends on it is made for ASCII
    text. *)
Fixpoint is_ascii (s : string) : bool :=
  match s with
  | EmptyString => true
  | String c s' => (nat_of_ascii c <? 128)%nat && is_ascii s'
  end.

End PyStr.

(** ** Python floats

    A Python [float] is an IEEE 754 binary64 number: Rocq's primitive
    [float].  Arithmetic and comparisons are the primitive ones; what Python
    adds is the conversion from text and from integers and the decimal
    [round]. *)
Module PyFloat.

(** The binary64 number nearest to the rational [n / d] (ties to even),
    with the sign [neg]; [n] is non-negative.  The quotient is computed to
    at least 55 bits and its last bit made sticky, then rounded once. *)
Definition nearest_double (neg : bool) (n : Z) (d : positive) : float :=
  if n =? 0 then (if neg then (-0)%float else 0%float)
  else
    let k := Z.max 0 (Z.log2_up (Zpos d) + 55 - Z.log2 n) in
    let q := (n * 2 ^ k) / Zpos d in
    let r := (n * 2 ^ k) mod Zpos d in
    let m := 2 * q + (if r =? 0 then 0 else 1) in
    SF2Prim (binary_normalize prec emax (if neg then - m else m) (- k - 1) neg).

(** [num / den] rounded to the nearest integer, ties to the even one. *)
Definition round_half_even (num den : Z) : Z :=
  let q := num / den in
  let r := num mod den in
  match 2 * r ?= den with
  | Lt => q
  | Gt => q + 1
  | Eq => if Z.even q then q else q + 1
  end.

(** [round(x, ndigits)] for [ndigits >= 0]: the exact value of [x] is
    rounded half-even to [ndigits] decimals and the decimal result is read
    back as the nearest float; infinities, NaN and zeros are returned as
    they are. *)
Definition round (x : float) (ndigits : nat) : float :=
  match Prim2SF x with
  | S754_finite s m e =>
      let p := 10 ^ Z.of_nat ndigits in
      let num := Zpos m * p * 2 ^ Z.max e 0 in
      let den := 2 ^ Z.max (- e) 0 in
      nearest_double s (round_half_even num den) (Z.to_pos p)
  | _ => x
  end.

(** The built-ins [min(a, b)] and [max(a, b)] keep their first argument
    unless the second compares strictly smaller (resp. larger). *)
Definition min (a b : float) : float := if (b <? a)%float then b else a.
Definition max (a b : float) : float := if (a <? b)%float then b else a.

(** [x >= y] on floats. *)
Definition geb (x y : float) : bool := (y <=? x)%float.

Definition is_nan (x : float) : bool := negb (x =? x)%float.

Definition is_inf (x : float) : bool := (abs x =? infinity)%float.

(** *** [float(n)] for an integer [n]

    The nearest float; [None] stands for the [OverflowError] raised when
    the integer is too large. *)
Definition of_int (n : Z) : option float :=
  let x := nearest_double (n <? 0) (Z.abs n) 1 in
  if is_inf x then None else Some x.

(** *** [float(s)] for an ASCII text [s]

    Grammar: optional blanks, optional sign, then [inf], [infinity] or
    [nan] in any case, or a decimal number
    [digitpart] [.] [digitpart] with an optional exponent, where a
    [digitpart] is a run of digits that may be separated by single
    underscores.  [None] stands for the [ValueError]. *)
Definition digit_of (c : ascii) : option Z :=
  let n := nat_of_ascii c in
  if (48 <=? n)%nat && (n <=? 57)%nat then Some (Z.of_nat (n - 48)) else None.

(** The rest of a [digitpart] after a digit: the value read so far, the
    number of digits read so far, and the unread text. *)
Fixpoint digitpart_rest (s : string) (acc cnt : Z) : Z * Z * string :=
  match s with
  | EmptyString => (acc, cnt, s)
  | String c s' =>
      match digit_of c with
      | Some d => digitpart_rest s' (10 * acc + d) (cnt + 1)
      | None =>
          if Ascii.eqb c "_" then
            match s' with
            | String c' s'' =>
                match digit_of c' with
                | Some d => digitpart_rest s'' (10 * acc + d) (cnt + 1)
                | None => (acc, cnt, s)
                end
            | EmptyString => (acc, cnt, s)
            end
          else (acc, cnt, s)
      end
  end.

Definition digitpart (s : string) (acc : Z) : option (Z * Z * string) :=
  match s with
  | EmptyString => None
  | String c s' =>
      match digit_of c with
      | Some d => Some (digitpart_rest s' (10 * acc + d) 1)
      | None => None
      end
  end.

(** [number]: all the digits as one integer, the number of digits after
    the point, and the unread text. *)
Definition number (s : string) : option (Z * Z * string) :=
  match digitpart s 0 with
  | Some (m, _, rest) =>
      match rest with
      | String "."%char rest' =>
          match digitpart rest' m with
          | Some r => Some r
          | None => Some (m, 0, rest')
          end
      | _ => Some (m, 0, rest)
      end
  | None =>
      match s with
      | String "."%char rest' => digitpart rest' 0
      | _ => None
      end
  end.

Definition sign_of (s : string) : bool * string :=
  match s with
  | String "-"%char r => (true, r)
  | String "+"%char r => (false, r)
  | _ => (false, s)
  end.

(** An exponent is read only when it is complete. *)
Definition exponent (s : string) : Z * string :=
  match s with
  | String c r =>
      if Ascii.eqb c "e" || Ascii.eqb c "E" then
        let (neg, r') := sign_of r in
        match digitpart r' 0 with
        | Some (v, _, r'') => (if neg then - v else v, r'')
        | None => (0, s)
        end
      else (0, s)
  | EmptyString => (0, s)
  end.

(** Blanks skipped around a number: tab to carriage return, and space. *)
Definition is_blank (c : ascii) : bool :=
  let n := nat_of_ascii c in
  ((9 <=? n)%nat && (n <=? 13)%nat) || (n =? 32)%nat.

(** The float nearest to [m * 10 ^ (e - f)]. *)
Definition of_decimal (neg : bool) (m f e : Z) : float :=
  let x := e - f in
  if 0 <=? x then nearest_double neg (m * 10 ^ x) 1
  else nearest_double neg m (Z.to_pos (10 ^ (- x))).

Definition of_str (s : string) : option float :=
  let t := PyStr.rstrip_by is_blank (PyStr.lstrip_by is_blank s) in
  let (neg, u) := sign_of t in
  let w := PyStr.lower u in
  if (w =? "inf")%string || (w =? "infinity")%string then
    Some (if neg then neg_infinity else infinity)
  else if (w =? "nan")%string then Some nan
  else
    match number u with
    | Some (m, f, r) =>
        match exponent r with
        | (e, EmptyString) => Some (of_decimal neg m f e)
        | _ => None
        end
    | None => None
    end.

End PyFloat.

(** ** Python values and exceptions

    The values a handler sees: what [request.get_json] produces and what a
    response body is made of.  A dictionary is an association list in
    which a key is looked up at its first binding. *)
Inductive JValue : Type :=
| JNull
| JBool (b : bool)
| JInt (n : Z)
| JFloat (x : float)
| JStr (s : string)
| JList (l : list JValue)
| JDict (d : list (string * JValue)).

Inductive exn : Type :=
| TypeError
| ValueError
| AttributeError
| OverflowError.

Inductive result (A : Type) : Type :=
| Ok (a : A)
| Raise (e : exn).
Arguments Ok {A} a.
Arguments Raise {A} e.

Fixpoint assoc {A : Type} (key : string) (d : list (string * A)) : option A :=
  match d with
  | [] => None
  | (k, v) :: d' => if (k =? key)%string then Some v else assoc key d'
  end.

(** Truth value of a Python object, as tested by [not] and [or]. *)
Definition truthy (v : JValue) : bool :=
  match v with
  | JNull => false
  | JBool b => b
  | JInt n => negb (n =? 0)
  | JFloat x => negb (x =? 0)%float
  | JStr s => negb (s =? "")%string
  | JList l => match l with [] => false | _ => true end
  | JDict d => match d with [] => false | _ => true end
  end.

(** [isinstance(v, str)]. *)
Definition isinstance_str (v : JValue) : bool :=
  match v with
  | JStr _ => true
  | _ => false
  end.

(** [data.get(key)]: only a dictionary has the method; a missing key
    gives [None]. *)
Definition get (data : JValue) (key : string) : result JValue :=
  match data with
  | JDict d => Ok (match assoc key d with Some v => v | None => JNull end)
  | _ => Raise AttributeError
  end.

(** [v.strip()]: only text has the method. *)
Definition strip (v : JValue) : result string :=
  match v with
  | JStr s => Ok (PyStr.strip s)
  | _ => Raise AttributeError
  end.

(** The built-in [float(v)]. *)
Definition float_ (v : JValue) : result float :=
  match v with
  | JFloat x => Ok x
  | JInt n =>
      match PyFloat.of_int n with
      | Some x => Ok x
      | None => Raise OverflowError
      end
  | JBool b => Ok (if b then 1%float else 0%float)
  | JStr s =>
      match PyFloat.of_str s with
      | Some x => Ok x
      | None => Raise ValueError
      end
  | JNull | JList _ | JDict _ => Raise TypeError
  end.

(** ** Process state and handlers

    The module-level state of the program: the id sequence [count(1)]
    (represented by the next value it yields) and the inventory's list.  A
    handler is a state transformer that may raise; the state reached when
    it raises is kept. *)
Record Item : Type := mkItem {
  name : string;
  price : float;
  category : string;
  id : Z
}.

Record Process : Type := mkProcess {
  _id_seq : Z;
  inventory : list Item
}.

Definition Handler (A : Type) : Type := Process -> result A * Process.

Definition ret {A : Type} (a : A) : Handler A := fun p => (Ok a, p).

Definition raise {A : Type} (e : exn) : Handler A := fun p => (Raise e, p).

Definition bind {A B : Type} (m : Handler A) (k : A -> Handler B) : Handler B :=
  fun p =>
    match m p with
    | (Ok a, p') => k a p'
    | (Raise e, p') => (Raise e, p')
    end.

Definition lift {A : Type} (r : result A) : Handler A := fun p => (r, p).

Notation "x <- m ;; k" := (bind m (fun x => k))
  (at level 61, m at next level, right associativity).

(** ** Domain model *)

(** [next(_id_seq)]. *)
Definition next_id : Handler Z :=
  fun p => (Ok (_id_seq p), mkProcess (_id_seq p + 1) (inventory p)).

(** The constructor [Item(name, price, category)]: the id comes from the
    default factory. *)
Definition new_Item (name : string) (price : float) (category : string)
  : Handler Item :=
  i <- next_id ;;
  ret (mkItem name price category i).

(** [Item.apply_discount(self, percent)]. *)
Definition apply_discount (self : Item) (percent : float) : float :=
  let percent := PyFloat.max 0 (PyFloat.min percent 100) in
  let discounted := PyFloat.round (price self * (1 - percent / 100))%float 2 in
  discounted.

(** [Item.to_dict(self)]: the fields in declaration order. *)
Definition to_dict (self : Item) : JValue :=
  JDict [("name", JStr (name self)); ("price", JFloat (price self));
         ("category", JStr (category self)); ("id", JInt (id self))]%string.

(** [Inventory.add]. *)
Definition add (item : Item) : Handler Item :=
  fun p => (Ok item, mkProcess (_id_seq p) (inventory p ++ [item])).

(** [Inventory.all]: a copy of the list. *)
Definition all : Handler (list Item) := fun p => (Ok (inventory p), p).

(** [Inventory.by_category]. *)
Definition by_category (category' : string) : Handler (list Item) :=
  fun p =>
    (Ok (filter (fun i => (PyStr.lower (category i) =? PyStr.lower category')%string)
           (inventory p)), p).

(** [Inventory.expensive]. *)
Definition expensive (min_price : float) : Handler (list Item) :=
  fun p => (Ok (filter (fun i => PyFloat.geb (price i) min_price) (inventory p)), p).

(** The module's seed data: five items are constructed in order, then
    handed to [Inventory]. *)
Definition seed : Handler unit :=
  i1 <- new_Item "USB-C Cable" 9.99 "electronics" ;;
  i2 <- new_Item "Wireless Mouse" 24.50 "electronics" ;;
  i3 <- new_Item "Notebook (A5)" 3.25 "stationery" ;;
  i4 <- new_Item "Office Chair" 189.00 "furniture" ;;
  i5 <- new_Item "Standing Desk" 399.99 "furniture" ;;
  fun p => (Ok tt, mkProcess (_id_seq p) [i1; i2; i3; i4; i5]).

(** The state once the module is loaded. *)
Definition startup : Process := snd (seed (mkProcess 1 [])).

(** ** Functional helpers *)

Definition items_to_dicts (items : list Item) : list JValue :=
  map (fun i => to_dict i) items.

(** [filter_items(items, min_price=..., category=...)]; [None] is an
    argument left out. *)
Definition filter_items (items : list Item)
  (min_price : option float) (category' : option string) : list Item :=
  let preds : list (Item -> bool) := [] in
  let preds :=
    match min_price with
    | Some m => preds ++ [fun i => PyFloat.geb (price i) m]
    | None => preds
    end in
  let preds :=
    match category' with
    | Some c => preds ++ [fun i => (PyStr.lower (category i) =? PyStr.lower c)%string]
    | None => preds
    end in
  match preds with
  | [] => items
  | _ =>
      let all_preds (i : Item) : bool := forallb (fun p => p i) preds in
      filter all_preds items
  end.

(** ** Simulated pricing service

    The awaited sleeps only take time; what the coroutines compute depends
    on the category and on the uniform draw made for the discount, which is
    an input of the model. *)

(** [fetch_tax_rate(category)]. *)
Definition fetch_tax_rate (category' : string) : float :=
  let base :=
    match assoc (PyStr.lower category')
            [("electronics", 0.13); ("furniture", 0.08); ("stationery", 0.05)]%string%float
    with
    | Some r => r
    | None => 0.07%float
    end in
  base.

(** [fetch_dynamic_discount(item_id)], where [u] is the value drawn by
    [random.uniform(0, 15)]. *)
Definition fetch_dynamic_discount (item_id : Z) (u : float) : float :=
  PyFloat.round u 2.

(** [compute_adjusted_price(item)], with the draw [u] of its discount. *)
Definition compute_adjusted_price (item : Item) (u : float) : JValue :=
  let tax_rate := fetch_tax_rate (category item) in
  let discount_pct := fetch_dynamic_discount (id item) u in
  let taxed := PyFloat.round (price item * (1 + tax_rate))%float 2 in
  let final_price :=
    PyFloat.round (apply_discount item discount_pct * (1 + tax_rate))%float 2 in
  JDict [("item", to_dict item);
         ("tax_rate", JFloat tax_rate);
         ("discount_percent", JFloat discount_pct);
         ("taxed_price", JFloat taxed);
         ("final_price", JFloat final_price)]%string.

(** [asyncio.gather] over one task per item: the results come in the order
    of the tasks, whatever the order of completion; [rnd k] is the draw of
    the task at position [k]. *)
Fixpoint gather (rnd : nat -> float) (k : nat) (items : list Item) : list JValue :=
  match items with
  | [] => []
  | i :: items' => compute_adjusted_price i (rnd k) :: gather rnd (S k) items'
  end.

(** ** Flask routes *)

Inductive Body : Type :=
| Json (v : JValue)
| Html
| ServerErrorPage.

Record Response : Type := mkResponse {
  body : Body;
  status : Z
}.

Inductive Endpoint : Type :=
| GET_root
| GET_items
| GET_items_expensive
| GET_items_search
| POST_items
| GET_async_quotes.

(** What a handler reads of the request: the query string
    ([request.args]), the outcome of
    [request.get_json(force=True, silent=True)] ([None] when the body is
    not JSON) and the form fields ([request.form.to_dict()]). *)
Record Request : Type := mkRequest {
  endpoint : Endpoint;
  args : list (string * string);
  json : option JValue;
  form : list (string * string)
}.

(** [jsonify(v)], with the default status. *)
Definition jsonify (v : JValue) : Response := mkResponse (Json v) 200.

(** [(jsonify(v), code)]. *)
Definition jsonify_with (v : JValue) (code : Z) : Response := mkResponse (Json v) code.

Definition error_body (msg : string) : JValue := JDict [("error"%string, JStr msg)].

Definition index (req : Request) : Handler Response :=
  ret (mkResponse Html 200).

Definition get_items (req : Request) : Handler Response :=
  items <- all ;;
  ret (jsonify (JList (items_to_dicts items))).

Definition get_expensive (req : Request) : Handler Response :=
  let arg := match assoc "min" (args req) with Some s => JStr s | None => JInt 100 end in
  let min_price :=
    match float_ arg with
    | Ok x => Ok x
    | Raise TypeError | Raise ValueError => Ok 100.0%float
    | Raise e => Raise e
    end in
  min_price <- lift min_price ;;
  items <- expensive min_price ;;
  ret (jsonify (JList (items_to_dicts items))).

Definition search_items (req : Request) : Handler Response :=
  let min_price := assoc "min" (args req) in
  let category' := assoc "category" (args req) in
  min_price_f <-
    match min_price with
    | Some s => x <- lift (float_ (JStr s)) ;; ret (Some x)
    | None => ret None
    end ;;
  items <- all ;;
  let filtered := filter_items items min_price_f category' in
  ret (jsonify (JList (items_to_dicts filtered))).

(** [request.form.to_dict()] as a dictionary of text values. *)
Definition form_dict (req : Request) : JValue :=
  JDict (map (fun kv => (fst kv, JStr (snd kv))) (form req)).

Definition invalid_payload : string := "Invalid payload. Expect name, price, category".

Definition price_not_number : string := "Price must be a number".

(** [request.get_json(force=True, silent=True) or request.form.to_dict()]. *)
Definition payload (req : Request) : JValue :=
  match json req with
  | Some v => if truthy v then v else form_dict req
  | None => form_dict req
  end.

Definition create_item (req : Request) : Handler Response :=
  let data := payload req in
  name' <- lift (get data "name") ;;
  price' <- lift (get data "price") ;;
  category' <- lift (get data "category") ;;
  if negb (isinstance_str name') || negb (truthy category') || negb (truthy price') then
    ret (jsonify_with (error_body invalid_payload) 400)
  else
    match float_ price' with
    | Raise _ => ret (jsonify_with (error_body price_not_number) 400)
    | Ok price'' =>
        n <- lift (strip name') ;;
        c <- lift (strip category') ;;
        item <- new_Item n price'' c ;;
        item <- add item ;;
        ret (jsonify_with (to_dict item) 201)
    end.

Definition async_quotes (rnd : nat -> float) (req : Request) : Handler Response :=
  items <- all ;;
  let results := gather rnd 0 items in
  ret (jsonify (JList results)).

(** Flask turns an exception that escapes a view into a 500 response. *)
Definition respond (h : Handler Response) (p : Process) : Response * Process :=
  match h p with
  | (Ok r, p') => (r, p')
  | (Raise _, p') => (mkResponse ServerErrorPage 500, p')
  end.

(** One request served: [rnd] gives the uniform draws made while it is
    served. *)
Definition serve (rnd : nat -> float) (req : Request) : Process -> Response * Process :=
  respond
    match endpoint req with
    | GET_root => index req
    | GET_items => get_items req
    | GET_items_expensive => get_expensive req
    | GET_items_search => search_items req
    | POST_items => create_item req
    | GET_async_quotes => async_quotes rnd req
    end.

(** The process after a sequence of requests. *)
Fixpoint run (trace : list ((nat -> float) * Request)) (p : Process) : Process :=
  match trace with
  | [] => p
  | (rnd, req) :: trace' => run trace' (snd (serve rnd req p))
  end.

(** The ids of the items created so far, in creation order. *)
Definition ids (p : Process) : list Z := map id (inventory p).

(** ** Vocabulary of the specification *)

(** [c] is [percent] clamped into the interval from 0 to 100.  A percent
    inside the interval is kept, a zero of either sign giving zero. *)
Definition clamped (percent c : float) : Prop :=
  (0 <=? c)%float = true /\ (c <=? 100)%float = true /\
  ((percent <? 0)%float = true -> c = 0%float) /\
  ((100 <? percent)%float = true -> c = 100%float) /\
  ((0 <=? percent)%float = true -> (percent <=? 100)%float = true ->
     c = percent \/ ((percent =? 0)%float = true /\ c = 0%float)).

(** The predicates of [filter_items] in the words of the specification: a
    filter left out holds of every item. *)
Definition price_at_least (min_price : option float) (i : Item) : bool :=
  match min_price with
  | Some m => (m <=? price i)%float
  | None => true
  end.

Definition category_matches (category' : option string) (i : Item) : bool :=
  match category' with
  | Some c => PyStr.equal_ignoring_case (category i) c
  | None => true
  end.

(** The tax table of the specification. *)
Definition tax_table (category' : string) : float :=
  if PyStr.equal_ignoring_case category' "electronics" then 0.13%float
  else if PyStr.equal_ignoring_case category' "furniture" then 0.08%float
  else if PyStr.equal_ignoring_case category' "stationery" then 0.05%float
  else 0.07%float.

(** An adjusted-price record. *)
Definition quote_record (item : Item)
  (tax_rate discount_percent taxed_price final_price : float) : JValue :=
  JDict [("item", to_dict item);
         ("tax_rate", JFloat tax_rate);
         ("discount_percent", JFloat discount_percent);
         ("taxed_price", JFloat taxed_price);
         ("final_price", JFloat final_price)]%string.

(** The field of a dictionary as [get] returns it. *)
Definition field (d : list (string * JValue)) (key : string) : JValue :=
  match assoc key d with
  | Some v => v
  | None => JNull
  end.

(** The integers from [a], [n] of them. *)
Fixpoint zrange (a : Z) (n : nat) : list Z :=
  match n with
  | O => []
  | S n' => a :: zrange (a + 1) n'
  end.

(** A POST request carrying a JSON body. *)
Definition post_json (v : JValue) : Request := mkRequest POST_items [] (Some v) [].

(** A constant source of draws, for examples. *)
Definition no_draw : nat -> float := fun _ => 0%float.

(** The comparison of two floats, as specified on their decoded form;
    [None] when one of them is NaN. *)
Definition cmp (x y : float) : option comparison :=
  SFcompare (Prim2SF x) (Prim2SF y).

(** How a float can stand with respect to 0 and to 100. *)
Inductive Position : option comparison -> option comparison -> Prop :=
| pos_nan : Position None None
| pos_negative : Position (Some Lt) (Some Lt)
| pos_zero : Position (Some Eq) (Some Lt)
| pos_inside : Position (Some Gt) (Some Lt)
| pos_hundred : Position (Some Gt) (Some Eq)
| pos_above : Position (Some Gt) (Some Gt).

(** [t] is [s] without its surrounding whitespace. *)
Definition trimmed (s t : string) : Prop :=
  exists l r : string,
    PyStr.all_space l = true /\ PyStr.all_space r = true /\
    s = (l ++ t ++ r)%string /\
    PyStr.starts_with_space t = false /\ PyStr.ends_with_space t = false.


(** ** Vocabulary of the further properties *)

(** The threshold [get_expensive] ends up with: the value of [min] when it
    reads as a number, 100.0 when it is absent or does not. *)
Definition threshold (a : list (string * string)) : float :=
  match assoc "min" a with
  | Some s =>
      match PyFloat.of_str s with
      | Some x => x
      | None => 100%float
      end
  | None => 100%float
  end.

(** The body of GET /items in the state [p]. *)
Definition listing (p : Process) : JValue := JList (items_to_dicts (inventory p)).

(** A text without whitespace at either end. *)
Definition tidy (s : string) : bool :=
  negb (PyStr.starts_with_space s) && negb (PyStr.ends_with_space s).

(** * Properties *)

(** ** Comparisons of floats

    The primitive comparisons are read through their specification on
    [spec_float], where they are case analyses. *)
Lemma SFcompare_swap (x y : spec_float) :
  SFcompare y x = option_map CompOpp (SFcompare x y).
Proof.
  destruct x as [sx|sx| |sx mx ex], y as [sy|sy| |sy my ey]; simpl;
    try (destruct sx); try (destruct sy); simpl; try reflexivity;
    change (Pos.compare_cont Eq my mx) with (Pos.compare my mx);
    change (Pos.compare_cont Eq mx my) with (Pos.compare mx my);
    rewrite (Z.compare_antisym ex ey), (Pos.compare_antisym mx my);
    destruct (ex ?= ey); simpl; try reflexivity;
    destruct (mx ?= my)%positive; reflexivity.
Qed.

Lemma cmp_swap (x y : float) : cmp y x = option_map CompOpp (cmp x y).
Proof. apply SFcompare_swap. Qed.

Lemma ltb_cmp (x y : float) :
  (x <? y)%float = match cmp x y with Some Lt => true | _ => false end.
Proof. rewrite ltb_spec. reflexivity. Qed.

Lemma leb_cmp (x y : float) :
  (x <=? y)%float = match cmp x y with Some (Lt | Eq) => true | _ => false end.
Proof. rewrite leb_spec. reflexivity. Qed.

Lemma eqb_cmp (x y : float) :
  (x =? y)%float = match cmp x y with Some Eq => true | _ => false end.
Proof. rewrite eqb_spec. reflexivity. Qed.

Lemma position (p : float) : Position (cmp p 0) (cmp p 100).
Proof.
  unfold cmp.
  change (Prim2SF 0) with (S754_zero false).
  change (Prim2SF 100) with (S754_finite false 7036874417766400 (-46)).
  destruct (Prim2SF p) as [s|s| |s m e]; cbv beta iota delta [SFcompare].
  - constructor.
  - destruct s; constructor.
  - constructor.
  - destruct s; [constructor|].
    destruct (e ?= -46); try constructor.
    destruct (Pos.compare_cont Eq m 7036874417766400); constructor.
Qed.

Lemma cmp_refl (p : float) : cmp p 0 <> None -> cmp p p = Some Eq.
Proof.
  unfold cmp. change (Prim2SF 0) with (S754_zero false).
  destruct (Prim2SF p) as [s|s| |s m e]; simpl; intros H;
    try congruence; destruct s; try reflexivity;
    rewrite Z.compare_refl;
    change (Pos.compare_cont Eq m m) with (Pos.compare m m);
    rewrite Pos.compare_refl; reflexivity.
Qed.

(** The clamp of [apply_discount] in closed form. *)
Lemma clamp_cases (p : float) :
  PyFloat.max 0 (PyFloat.min p 100) =
    match cmp p 100, cmp p 0 with
    | Some Gt, _ => 100%float
    | _, Some Gt => p
    | _, _ => 0%float
    end.
Proof.
  unfold PyFloat.max, PyFloat.min.
  assert (H0 : (0 <? p)%float = match cmp p 0 with Some Gt => true | _ => false end).
  { rewrite ltb_cmp, (cmp_swap p 0). destruct (cmp p 0) as [[ | | ]|]; reflexivity. }
  rewrite (ltb_cmp 100 p), (cmp_swap p 100).
  pose proof (position p) as P.
  destruct (cmp p 0) as [[ | | ]|], (cmp p 100) as [[ | | ]|];
    inversion P; cbn [option_map CompOpp]; rewrite ?H0; reflexivity.
Qed.

Lemma clamp_clamped (p : float) : clamped p (PyFloat.max 0 (PyFloat.min p 100)).
Proof.
  rewrite clamp_cases. unfold clamped.
  rewrite (ltb_cmp p 0), (ltb_cmp 100 p), (cmp_swap p 100),
    (leb_cmp 0 p), (cmp_swap p 0), (leb_cmp p 100), (eqb_cmp p 0).
  pose proof (position p) as P.
  pose proof (cmp_refl p) as R.
  assert (Hp0 : (0 <=? p)%float = match cmp p 0 with Some (Gt | Eq) => true | _ => false end).
  { rewrite leb_cmp, (cmp_swap p 0). destruct (cmp p 0) as [[ | | ]|]; reflexivity. }
  destruct (cmp p 0) as [[ | | ]|] eqn:E0, (cmp p 100) as [[ | | ]|] eqn:E100;
    inversion P; cbn [option_map CompOpp];
    repeat split; try reflexivity; try discriminate; auto;
    try (rewrite Hp0; reflexivity);
    try (rewrite leb_cmp, E100; reflexivity).
Qed.

(** C5.  For every item and every percent, [apply_discount] clamps the
    percent into the interval from 0 to 100 and returns the price times
    (1 - percent/100) rounded to 2 decimals; it is a function of the item
    and changes nothing.  In particular, with a price of 100, the percents
    -10 and 0 both give 100.00 and the percents 150 and 100 both give
    0.00. *)
Theorem apply_discount_clamps_then_rounds (item : Item) (percent : float) :
  (exists c : float,
      clamped percent c /\
      apply_discount item percent
      = PyFloat.round (price item * (1 - c / 100))%float 2) /\
  (forall n c i,
      apply_discount (mkItem n 100 c i) (-10) = 100%float /\
      apply_discount (mkItem n 100 c i) 0 = 100%float /\
      apply_discount (mkItem n 100 c i) 150 = 0%float /\
      apply_discount (mkItem n 100 c i) 100 = 0%float).
Proof.
  split.
  - exists (PyFloat.max 0 (PyFloat.min percent 100)). split.
    + apply clamp_clamped.
    + reflexivity.
  - intros n c i. unfold apply_discount. cbn [price].
    repeat split; vm_compute; reflexivity.
Qed.

(** ** Text *)

Lemma in_all_ascii (a : ascii) : In a PyStr.all_ascii.
Proof.
  unfold PyStr.all_ascii. rewrite <- (ascii_nat_embedding a).
  apply in_map. apply in_seq. pose proof (nat_ascii_bounded a). lia.
Qed.

Lemma same_letter_lower (a b : ascii) :
  PyStr.same_letter a b = Ascii.eqb (PyStr.lower_char a) (PyStr.lower_char b).
Proof.
  assert (H : forallb (fun a => forallb (fun b =>
              Bool.eqb (PyStr.same_letter a b)
                (Ascii.eqb (PyStr.lower_char a) (PyStr.lower_char b)))
              PyStr.all_ascii) PyStr.all_ascii = true)
    by (vm_compute; reflexivity).
  rewrite forallb_forall in H. specialize (H a (in_all_ascii a)).
  rewrite forallb_forall in H. specialize (H b (in_all_ascii b)).
  apply Bool.eqb_prop in H. exact H.
Qed.

Lemma lower_eqb (s t : string) :
  (PyStr.lower s =? PyStr.lower t)%string = PyStr.equal_ignoring_case s t.
Proof.
  revert t. induction s as [|a s IH]; intros [|b t]; cbn; try reflexivity.
  rewrite same_letter_lower, <- IH.
  destruct (Ascii.eqb (PyStr.lower_char a) (PyStr.lower_char b)); reflexivity.
Qed.

Lemma filter_all {A : Type} (l : list A) : filter (fun _ => true) l = l.
Proof. induction l as [|x l IH]; cbn; congruence. Qed.



(** ** Pricing *)

Lemma fetch_tax_rate_table (c : string) : fetch_tax_rate c = tax_table c.
Proof.
  unfold fetch_tax_rate, tax_table. cbn [assoc].
  rewrite <- !lower_eqb.
  change (PyStr.lower "electronics") with "electronics"%string.
  change (PyStr.lower "furniture") with "furniture"%string.
  change (PyStr.lower "stationery") with "stationery"%string.
  rewrite (String.eqb_sym "electronics"), (String.eqb_sym "furniture"),
    (String.eqb_sym "stationery").
  destruct (PyStr.lower c =? "electronics")%string; [reflexivity|].
  destruct (PyStr.lower c =? "furniture")%string; [reflexivity|].
  destruct (PyStr.lower c =? "stationery")%string; reflexivity.
Qed.

Lemma gather_length (rnd : nat -> float) (items : list Item) :
  forall k, List.length (gather rnd k items) = List.length items.
Proof. induction items as [|i items IH]; intros k; cbn; [reflexivity|]. now rewrite IH. Qed.

Lemma gather_nth (rnd : nat -> float) (items : list Item) :
  forall k n item,
    nth_error items n = Some item ->
    nth_error (gather rnd k items) n = Some (compute_adjusted_price item (rnd (k + n)%nat)).
Proof.
  induction items as [|i items IH]; intros k n item H.
  - destruct n; discriminate.
  - destruct n as [|n]; cbn in *.
    + injection H as ->. now rewrite Nat.add_0_r.
    + rewrite (IH (S k) n item H). now rewrite Nat.add_succ_r.
Qed.

(** C1.  For every state of the inventory, GET /async/quotes answers 200
    with exactly one adjusted-price record per item, in inventory order;
    in the record of an item the tax rate is the table value of its
    category (matched up to case), [taxed_price] is
    round(price * (1 + tax_rate), 2) and [final_price] is
    round(apply_discount(price, discount_percent) * (1 + tax_rate), 2). *)
Theorem async_quotes_one_record_per_item
  (rnd : nat -> float) (a : list (string * string)) (j : option JValue)
  (f : list (string * string)) (p : Process) :
  exists quotes : list JValue,
    serve rnd (mkRequest GET_async_quotes a j f) p
    = (mkResponse (Json (JList quotes)) 200, p) /\
    List.length quotes = List.length (inventory p) /\
    forall k item,
      nth_error (inventory p) k = Some item ->
      exists tax_rate discount_percent taxed_price final_price : float,
        nth_error quotes k
        = Some (quote_record item tax_rate discount_percent taxed_price final_price) /\
        tax_rate = tax_table (category item) /\
        taxed_price = PyFloat.round (price item * (1 + tax_rate))%float 2 /\
        final_price
        = PyFloat.round (apply_discount item discount_percent * (1 + tax_rate))%float 2.
Proof.
  exists (gather rnd 0 (inventory p)). split; [reflexivity|].
  split; [apply gather_length|].
  intros k item H.
  exists (fetch_tax_rate (category item)),
    (fetch_dynamic_discount (id item) (rnd k)),
    (PyFloat.round (price item * (1 + fetch_tax_rate (category item)))%float 2),
    (PyFloat.round (apply_discount item (fetch_dynamic_discount (id item) (rnd k))
                    * (1 + fetch_tax_rate (category item)))%float 2).
  split; [|split; [apply fetch_tax_rate_table|split; reflexivity]].
  rewrite (gather_nth rnd (inventory p) 0 k item H). reflexivity.
Qed.

(** ** The id sequence *)

Lemma zrange_snoc (n : nat) : forall a, zrange a (S n) = zrange a n ++ [a + Z.of_nat n].
Proof.
  induction n as [|n IH]; intros a.
  - cbn. now rewrite Z.add_0_r.
  - change (zrange a (S (S n))) with (a :: zrange (a + 1) (S n)).
    rewrite IH. cbn [zrange app]. do 3 f_equal. lia.
Qed.

Lemma zrange_lower (n : nat) : forall a x, In x (zrange a n) -> a <= x.
Proof.
  induction n as [|n IH]; intros a x H; cbn in H; [contradiction|].
  destruct H as [<-|H]; [lia|]. apply IH in H. lia.
Qed.

Lemma zrange_sorted (n : nat) : forall a, StronglySorted Z.lt (zrange a n).
Proof.
  induction n as [|n IH]; intros a; cbn; constructor.
  - apply IH.
  - apply Forall_forall. intros x H. apply zrange_lower in H. lia.
Qed.

Lemma zrange_nodup (n : nat) : forall a, NoDup (zrange a n).
Proof.
  induction n as [|n IH]; intros a; cbn; constructor.
  - intros H. apply zrange_lower in H. lia.
  - apply IH.
Qed.

(** A request leaves the process as it is or appends one item that takes
    the next id. *)
Lemma serve_effect (rnd : nat -> float) (req : Request) (p : Process) :
  snd (serve rnd req p) = p \/
  exists item,
    id item = _id_seq p /\
    snd (serve rnd req p) = mkProcess (_id_seq p + 1) (inventory p ++ [item]).
Proof.
  destruct req as [e a j f]. unfold serve, respond. destruct e; cbn [endpoint].
  - left. reflexivity.
  - left. reflexivity.
  - left. unfold get_expensive, bind, lift, expensive, ret.
    destruct (float_ _) as [x|[ | | | ]]; reflexivity.
  - left. unfold search_items, bind, lift, all, ret.
    destruct (assoc "min" _) as [s|]; [|reflexivity].
    destruct (float_ (JStr s)); reflexivity.
  - unfold create_item, bind, lift, ret, new_Item, next_id, add, bind, ret.
    destruct (get (payload _) "name") as [n|]; [|left; reflexivity].
    destruct (get (payload _) "price") as [v|]; [|left; reflexivity].
    destruct (get (payload _) "category") as [c|]; [|left; reflexivity].
    destruct (_ || _); [left; reflexivity|].
    destruct (float_ v) as [x|]; [|left; reflexivity].
    destruct (strip n) as [n'|]; [|left; reflexivity].
    destruct (strip c) as [c'|]; [|left; reflexivity].
    right. cbn. eexists. split; [|reflexivity]. reflexivity.
  - left. reflexivity.
Qed.

Lemma ids_invariant (rnd : nat -> float) (req : Request) (p : Process) :
  ids p = zrange 1 (List.length (inventory p)) /\
  _id_seq p = 1 + Z.of_nat (List.length (inventory p)) ->
  let p' := snd (serve rnd req p) in
  ids p' = zrange 1 (List.length (inventory p')) /\
  _id_seq p' = 1 + Z.of_nat (List.length (inventory p')).
Proof.
  intros [Hids Hseq] p'. subst p'.
  destruct (serve_effect rnd req p) as [->|(item & Hid & ->)]; [now split|].
  unfold ids in *. cbn [inventory _id_seq].
  rewrite map_app, length_app, Nat.add_1_r, zrange_snoc, Hids. cbn [map List.length].
  split; [|lia]. rewrite Hid, Hseq. reflexivity.
Qed.

Lemma run_invariant (trace : list ((nat -> float) * Request)) :
  forall p,
    ids p = zrange 1 (List.length (inventory p)) /\
    _id_seq p = 1 + Z.of_nat (List.length (inventory p)) ->
    ids (run trace p) = zrange 1 (List.length (inventory (run trace p))) /\
    _id_seq (run trace p) = 1 + Z.of_nat (List.length (inventory (run trace p))).
Proof.
  induction trace as [|[rnd req] trace IH]; intros p H; cbn [run]; [exact H|].
  apply IH. apply ids_invariant. exact H.
Qed.

Lemma run_keeps_seed (trace : list ((nat -> float) * Request)) :
  forall p, exists later, inventory (run trace p) = inventory p ++ later.
Proof.
  induction trace as [|[rnd req] trace IH]; intros p; cbn [run].
  - exists []. now rewrite app_nil_r.
  - destruct (IH (snd (serve rnd req p))) as [later H].
    destruct (serve_effect rnd req p) as [E|(item & _ & E)]; rewrite E in *.
    + now exists later.
    + exists (item :: later). rewrite H. cbn [inventory]. now rewrite <- app_assoc.
Qed.

(** C6.  The five seed items have the ids 1 to 5 in their listed order,
    and after any sequence of requests the ids of the inventory, in
    creation order, are 1, 2, ..., n: strictly increasing from 1, and no
    two items share an id. *)
Theorem ids_increase_from_1_without_repeats (trace : list ((nat -> float) * Request)) :
  ids startup = [1; 2; 3; 4; 5] /\
  map name (inventory startup)
  = ["USB-C Cable"; "Wireless Mouse"; "Notebook (A5)"; "Office Chair"; "Standing Desk"]%string /\
  (exists later, inventory (run trace startup) = inventory startup ++ later) /\
  ids (run trace startup) = zrange 1 (List.length (inventory (run trace startup))) /\
  StronglySorted Z.lt (ids (run trace startup)) /\
  NoDup (ids (run trace startup)).
Proof.
  split; [reflexivity|]. split; [reflexivity|]. split; [apply run_keeps_seed|].
  destruct (run_invariant trace startup) as [H _]; [split; reflexivity|].
  split; [exact H|]. rewrite H. split; [apply zrange_sorted|apply zrange_nodup].
Qed.

(** ** Stripping *)

Lemma lstrip_spec (s : string) :
  exists l, PyStr.all_space l = true /\
            s = (l ++ PyStr.lstrip_by PyStr.is_space s)%string /\
            PyStr.starts_with_space (PyStr.lstrip_by PyStr.is_space s) = false.
Proof.
  induction s as [|c s (l & Hl & Hs & Hn)]; cbn.
  - exists ""%string. auto.
  - destruct (PyStr.is_space c) eqn:E.
    + exists (String c l). cbn. rewrite E, Hl. repeat split; auto. now rewrite <- Hs.
    + exists ""%string. cbn. auto.
Qed.

Lemma rstrip_spec (s : string) :
  exists r, PyStr.all_space r = true /\
            s = (PyStr.rstrip_by PyStr.is_space s ++ r)%string /\
            PyStr.ends_with_space (PyStr.rstrip_by PyStr.is_space s) = false /\
            (PyStr.starts_with_space s = false ->
             PyStr.starts_with_space (PyStr.rstrip_by PyStr.is_space s) = false).
Proof.
  induction s as [|c s (r & Hr & Hs & He & _)]; cbn.
  - exists ""%string. auto.
  - destruct (PyStr.rstrip_by PyStr.is_space s) as [|c' t] eqn:Et.
    + destruct (PyStr.is_space c) eqn:E.
      * exists (String c r). cbn. rewrite E, Hr. cbn in Hs. subst s. auto.
      * exists r. cbn. rewrite E. cbn in Hs. subst s. auto.
    + exists r. split; [exact Hr|]. split.
      * change (String c s = String c (String c' t ++ r)%string). now f_equal.
      * split; [exact He|]. cbn. auto.
Qed.

Lemma strip_trimmed (s : string) : trimmed s (PyStr.strip s).
Proof.
  unfold trimmed, PyStr.strip.
  destruct (lstrip_spec s) as (l & Hl & Hs & Hn).
  destruct (rstrip_spec (PyStr.lstrip_by PyStr.is_space s)) as (r & Hr & Ht & He & Hk).
  exists l, r. repeat split; auto.
  rewrite <- Ht. exact Hs.
Qed.

(** ** Creating an item *)

(** [create_item] on a body that is a dictionary, as one case analysis. *)
Lemma create_item_on_dict (req : Request) (p : Process) (d : list (string * JValue)) :
  payload req = JDict d ->
  create_item req p =
    if negb (isinstance_str (field d "name")) || negb (truthy (field d "category"))
       || negb (truthy (field d "price"))
    then (Ok (jsonify_with (error_body invalid_payload) 400), p)
    else
      match float_ (field d "price") with
      | Raise _ => (Ok (jsonify_with (error_body price_not_number) 400), p)
      | Ok x =>
          match strip (field d "name"), strip (field d "category") with
          | Ok n, Ok c =>
              (Ok (jsonify_with (to_dict (mkItem n x c (_id_seq p))) 201),
               mkProcess (_id_seq p + 1) (inventory p ++ [mkItem n x c (_id_seq p)]))
          | Raise e, _ => (Raise e, p)
          | Ok _, Raise e => (Raise e, p)
          end
      end.
Proof.
  intros H. unfold create_item. rewrite H.
  unfold bind, lift, get, ret, new_Item, next_id, add, bind, ret.
  fold (field d "name"). fold (field d "price"). fold (field d "category").
  destruct (_ || _); [reflexivity|].
  destruct (float_ _); [|reflexivity].
  destruct (strip (field d "name")); [|reflexivity].
  destruct (strip (field d "category")); reflexivity.
Qed.

Lemma serve_post (rnd : nat -> float) a j f (p : Process) :
  serve rnd (mkRequest POST_items a j f) p
  = respond (create_item (mkRequest POST_items a j f)) p.
Proof. reflexivity. Qed.

Section PostItems.

Variables (rnd : nat -> float) (a : list (string * string)) (j : option JValue)
  (f : list (string * string)) (p : Process) (d : list (string * JValue)).

Hypothesis body_is_dict : payload (mkRequest POST_items a j f) = JDict d.

Lemma post_missing_field :
  isinstance_str (field d "name") = false \/ truthy (field d "category") = false
  \/ truthy (field d "price") = false ->
  serve rnd (mkRequest POST_items a j f) p = (mkResponse (Json (error_body invalid_payload)) 400, p).
Proof.
  rewrite serve_post. unfold respond. rewrite (create_item_on_dict _ p d body_is_dict).
  intros [H|[H|H]]; rewrite H; cbn [negb orb]; rewrite ?orb_true_r; reflexivity.
Qed.

Lemma post_created (n c : string) (x : float) :
  field d "name" = JStr n -> field d "category" = JStr c -> c <> ""%string ->
  truthy (field d "price") = true -> float_ (field d "price") = Ok x ->
  serve rnd (mkRequest POST_items a j f) p
  = (mkResponse (Json (to_dict (mkItem (PyStr.strip n) x (PyStr.strip c) (_id_seq p)))) 201,
     mkProcess (_id_seq p + 1)
       (inventory p ++ [mkItem (PyStr.strip n) x (PyStr.strip c) (_id_seq p)])).
Proof.
  intros Hn Hc Hne Ht Hx.
  rewrite serve_post. unfold respond.
  rewrite (create_item_on_dict _ p d body_is_dict), Hn, Hc, Ht, Hx.
  cbn [isinstance_str truthy negb orb strip].
  destruct c as [|c0 c']; [contradiction|]. reflexivity.
Qed.

Lemma post_category_not_text (x : float) (n : string) :
  field d "name" = JStr n ->
  truthy (field d "category") = true -> isinstance_str (field d "category") = false ->
  truthy (field d "price") = true -> float_ (field d "price") = Ok x ->
  serve rnd (mkRequest POST_items a j f) p = (mkResponse ServerErrorPage 500, p).
Proof.
  intros Hn Hc Hs Ht Hx.
  rewrite serve_post. unfold respond.
  rewrite (create_item_on_dict _ p d body_is_dict), Hn, Hc, Ht, Hx.
  cbn [isinstance_str truthy negb orb strip].
  destruct (field d "category"); try discriminate; reflexivity.
Qed.

End PostItems.




(** C2, at the failing input.  A payload whose name is the empty text,
    with a price and a category, is not rejected: the item is created
    with an empty name, the answer is 201 and the inventory grows; the
    same payload with an empty category, or with an empty price, is
    answered 400 with the message "Invalid payload. Expect name, price,
    category" and changes nothing. *)
Theorem create_item_empty_name_not_rejected :
  let d := [("name", JStr ""); ("price", JInt 1); ("category", JStr "x")]%string in
  let r := serve no_draw (post_json (JDict d)) startup in
  field d "name" = JStr "" /\
  ~ (status (fst r) = 400 /\ inventory (snd r) = inventory startup) /\
  r = (mkResponse
         (Json (JDict [("name", JStr ""); ("price", JFloat 1);
                       ("category", JStr "x"); ("id", JInt 6)]%string)) 201,
       mkProcess 7 (inventory startup ++ [mkItem "" 1 "x" 6])) /\
  serve no_draw
    (post_json (JDict [("name", JStr "Pen"); ("price", JInt 1);
                       ("category", JStr "")]%string)) startup
  = (mkResponse (Json (error_body invalid_payload)) 400, startup) /\
  serve no_draw
    (post_json (JDict [("name", JStr "Pen"); ("price", JStr "");
                       ("category", JStr "x")]%string)) startup
  = (mkResponse (Json (error_body invalid_payload)) 400, startup).
Proof.
  cbv zeta. split; [reflexivity|]. split.
  - intros [H _]. vm_compute in H. discriminate.
  - repeat split; vm_compute; reflexivity.
Qed.

(** C8, as amended.  A POST /items request whose price is the number 0
    (integer or float) is rejected with 400 and the message "Invalid
    payload. Expect name, price, category", whatever the other fields,
    because the presence check is a truth test; a price given as the text
    "0" passes that test and, with a text name and a non-empty text
    category, the item is created with price 0.0 and the answer is 201. *)
Theorem create_item_rejects_number_zero_accepts_text_zero
  (rnd : nat -> float) (a : list (string * string)) (j : option JValue)
  (f : list (string * string)) (p : Process) (d : list (string * JValue)) :
  payload (mkRequest POST_items a j f) = JDict d ->
  (field d "price" = JInt 0 \/
   (exists x, field d "price" = JFloat x /\ (x =? 0)%float = true) ->
   serve rnd (mkRequest POST_items a j f) p
   = (mkResponse (Json (error_body invalid_payload)) 400, p)) /\
  (forall n c,
     field d "price" = JStr "0" -> field d "name" = JStr n ->
     field d "category" = JStr c -> c <> ""%string ->
     serve rnd (mkRequest POST_items a j f) p
     = (mkResponse (Json (to_dict (mkItem (PyStr.strip n) 0 (PyStr.strip c) (_id_seq p)))) 201,
        mkProcess (_id_seq p + 1)
          (inventory p ++ [mkItem (PyStr.strip n) 0 (PyStr.strip c) (_id_seq p)]))).
Proof.
  intros Hd. split.
  - intros H. apply post_missing_field with (d := d); [exact Hd|].
    right. right. destruct H as [->|(x & -> & Hx)]; cbn [truthy]; [reflexivity|].
    now rewrite Hx.
  - intros n c Hp Hn Hc Hne.
    apply post_created with (d := d); auto; rewrite Hp; vm_compute; reflexivity.
Qed.

Lemma create_item_rejects_number_zero_accepts_text_zero_witness :
  serve no_draw
    (post_json (JDict [("name", JStr "Pen"); ("price", JInt 0);
                       ("category", JStr "stationery")]%string)) startup
  = (mkResponse (Json (error_body invalid_payload)) 400, startup).
Proof.
  apply (create_item_rejects_number_zero_accepts_text_zero no_draw []
           (Some (JDict [("name", JStr "Pen"); ("price", JInt 0);
                         ("category", JStr "stationery")]%string)) [] startup
           [("name", JStr "Pen"); ("price", JInt 0);
            ("category", JStr "stationery")]%string eq_refl).
  left. reflexivity.
Defined.

(** C8 fails as stated for the text "0": the request is answered 201 and
    the item is created with price 0.0. *)
Lemma create_item_text_zero_not_rejected :
  let d := [("name", JStr "Pen"); ("price", JStr "0"); ("category", JStr "stationery")]%string in
  let r := serve no_draw (post_json (JDict d)) startup in
  field d "price" = JStr "0" /\
  status (fst r) <> 400 /\
  r = (mkResponse (Json (to_dict (mkItem "Pen" 0 "stationery" 6))) 201,
       mkProcess 7 (inventory startup ++ [mkItem "Pen" 0 "stationery" 6])).
Proof.
  cbv zeta. split; [reflexivity|]. split.
  - vm_compute. discriminate.
  - vm_compute; reflexivity.
Qed.

Lemma field_form (f : list (string * string)) (key : string) :
  field (map (fun kv => (fst kv, JStr (snd kv))) f) key
  = match assoc key f with Some s => JStr s | None => JNull end.
Proof.
  unfold field. induction f as [|[k v] f IH]; cbn; [reflexivity|].
  destruct (k =? key)%string; [reflexivity|exact IH].
Qed.


(** C10.  A POST /items request whose category is present and truthy but
    not a text (the number 7, say), with a text name and a numeric price,
    passes validation; stripping the category then raises, and the answer
    is a 500 server error instead of a 400. *)
Theorem create_item_category_not_text_is_server_error
  (rnd : nat -> float) (a : list (string * string)) (j : option JValue)
  (f : list (string * string)) (p : Process)
  (d : list (string * JValue)) (n : string) (x : float) :
  payload (mkRequest POST_items a j f) = JDict d ->
  field d "name" = JStr n ->
  truthy (field d "category") = true -> isinstance_str (field d "category") = false ->
  truthy (field d "price") = true -> float_ (field d "price") = Ok x ->
  (exists e, strip (field d "category") = Raise e) /\
  serve rnd (mkRequest POST_items a j f) p = (mkResponse ServerErrorPage 500, p).
Proof.
  intros Hd Hn Hc Hs Ht Hx. split.
  - exists AttributeError. destruct (field d "category"); try discriminate; reflexivity.
  - now apply post_category_not_text with (d := d) (x := x) (n := n).
Qed.

Lemma create_item_category_not_text_is_server_error_witness :
  (exists e, strip (JInt 7) = Raise e) /\
  serve no_draw
    (post_json (JDict [("name", JStr "Pen"); ("price", JFloat 1.5);
                       ("category", JInt 7)]%string)) startup
  = (mkResponse ServerErrorPage 500, startup).
Proof.
  apply (create_item_category_not_text_is_server_error no_draw []
           (Some (JDict [("name", JStr "Pen"); ("price", JFloat 1.5);
                         ("category", JInt 7)]%string)) [] startup
           [("name", JStr "Pen"); ("price", JFloat 1.5); ("category", JInt 7)]%string
           "Pen" 1.5 eq_refl eq_refl eq_refl eq_refl eq_refl eq_refl).
Defined.

(** ** Query parameters *)

Lemma get_expensive_ok (rnd : nat -> float) a j f (p : Process) :
  exists items,
    serve rnd (mkRequest GET_items_expensive a j f) p
    = (mkResponse (Json (JList (items_to_dicts items))) 200, p) /\
    forall s, assoc "min" a = Some s -> PyFloat.of_str s = None ->
      items = filter (fun i => (100 <=? price i)%float) (inventory p).
Proof.
  unfold serve, respond, get_expensive, bind, lift, expensive, ret. cbn [endpoint args].
  destruct (assoc "min" a) as [s|].
  - cbn [float_]. destruct (PyFloat.of_str s) as [x|] eqn:E.
    + eexists. split; [reflexivity|]. intros s' [= <-] H. congruence.
    + eexists. split; [reflexivity|]. intros _ _ _. reflexivity.
  - change (float_ (JInt 100)) with (@Ok float 100%float).
    eexists. split; [reflexivity|]. intros s' H. discriminate.
Qed.

(** C3, at the failing input.  With the query [min=abc], which is not a
    number, GET /items/search raises and is answered 500, while
    GET /items/expensive falls back to 100.0 and is answered 200. *)
Theorem search_items_malformed_min_is_server_error
  (rnd : nat -> float) (p : Process) :
  PyFloat.of_str "abc" = None /\
  serve rnd (mkRequest GET_items_search [("min", "abc")]%string None []) p
  = (mkResponse ServerErrorPage 500, p) /\
  serve rnd (mkRequest GET_items_expensive [("min", "abc")]%string None []) p
  = (mkResponse
       (Json (JList (items_to_dicts
                       (filter (fun i => (100 <=? price i)%float) (inventory p))))) 200, p).
Proof.
  split; [vm_compute; reflexivity|]. split.
  - unfold serve, respond, search_items, bind, lift. cbn [endpoint args assoc].
    cbn [String.eqb Ascii.eqb Bool.eqb]. cbn [float_].
    replace (PyFloat.of_str "abc") with (@None float) by (vm_compute; reflexivity).
    reflexivity.
  - unfold serve, respond, get_expensive, bind, lift, expensive, ret.
    cbn [endpoint args assoc]. cbn [String.eqb Ascii.eqb Bool.eqb]. cbn [float_].
    replace (PyFloat.of_str "abc") with (@None float) by (vm_compute; reflexivity).
    reflexivity.
Qed.

(** ** The seed data, run *)

Example seed_expensive_from_100 :
  map name (filter_items (inventory startup) (Some 100%float) None)
  = ["Office Chair"; "Standing Desk"]%string.
Proof. vm_compute; reflexivity. Qed.

Example seed_search_ignores_case :
  filter_items (inventory startup) None (Some "Furniture"%string)
  = filter_items (inventory startup) None (Some "furniture"%string).
Proof. vm_compute; reflexivity. Qed.

Example seed_tax_rates :
  map (fun i => fetch_tax_rate (category i)) (inventory startup)
  = [0.13; 0.13; 0.05; 0.08; 0.08]%float
  /\ fetch_tax_rate "Toys" = 0.07%float
  /\ fetch_tax_rate "ELECTRONICS" = 0.13%float.
Proof. repeat split; vm_compute; reflexivity. Qed.

Example round_is_decimal_half_even :
  PyFloat.round 2.675 2 = 2.67%float /\ PyFloat.round 0.125 2 = 0.12%float
  /\ PyFloat.round 0.375 2 = 0.38%float /\ PyFloat.round (9.99 * (1 + 0.13)) 2 = 11.29%float.
Proof. repeat split; vm_compute; reflexivity. Qed.

(** * Further properties of the routes and helpers *)

(** ** Reading routes *)

Lemma float_100 : float_ (JInt 100) = Ok 100%float.
Proof. vm_compute; reflexivity. Qed.

Lemma get_expensive_always_answers_aux
  (rnd : nat -> float) (a : list (string * string)) (j : option JValue)
  (f : list (string * string)) (p : Process) :
  serve rnd (mkRequest GET_items_expensive a j f) p
  = (mkResponse
       (Json (JList (items_to_dicts
                       (filter (fun i => (threshold a <=? price i)%float) (inventory p)))))
       200, p).
Proof.
  unfold serve, respond, get_expensive, bind, lift, expensive, ret, threshold.
  cbn [endpoint args].
  destruct (assoc "min" a) as [s|].
  - cbn [float_]. destruct (PyFloat.of_str s) as [x|]; reflexivity.
  - rewrite float_100. reflexivity.
Qed.

(** X1.  GET /items/expensive never fails: whatever the query, body and
    state, it answers 200 with the items whose price is at least a
    threshold, in inventory order, and leaves the state as it is; the
    threshold is the value of [min] when it reads as a number, and 100.0
    when [min] is absent or is an ASCII text that does not read as a
    number. *)
Theorem get_expensive_always_answers
  (rnd : nat -> float) (a : list (string * string)) (j : option JValue)
  (f : list (string * string)) (p : Process) :
  exists t : float,
    serve rnd (mkRequest GET_items_expensive a j f) p
    = (mkResponse
         (Json (JList (items_to_dicts
                         (filter (fun i => (t <=? price i)%float) (inventory p)))))
         200, p)
    /\ (assoc "min" a = None -> t = 100%float)
    /\ (forall s x, assoc "min" a = Some s -> PyFloat.of_str s = Some x -> t = x)
    /\ (forall s, assoc "min" a = Some s -> PyStr.is_ascii s = true ->
        PyFloat.of_str s = None -> t = 100%float).
Proof.
  exists (threshold a). split; [apply get_expensive_always_answers_aux|].
  unfold threshold. repeat split.
  - now intros ->.
  - now intros s x -> ->.
  - now intros s -> _ ->.
Qed.

Lemma search_items_eval (rnd : nat -> float) a j f (p : Process) :
  serve rnd (mkRequest GET_items_search a j f) p
  = match assoc "min" a with
    | Some s =>
        match PyFloat.of_str s with
        | Some x =>
            (mkResponse (Json (JList (items_to_dicts
               (filter_items (inventory p) (Some x) (assoc "category" a))))) 200, p)
        | None => (mkResponse ServerErrorPage 500, p)
        end
    | None =>
        (mkResponse (Json (JList (items_to_dicts
           (filter_items (inventory p) None (assoc "category" a))))) 200, p)
    end.
Proof.
  unfold serve, respond, search_items, bind, lift, all, ret. cbn [endpoint args].
  destruct (assoc "min" a) as [s|]; [|reflexivity].
  cbn [float_]. destruct (PyFloat.of_str s); reflexivity.
Qed.

(** X2.  GET /items/search leaves the state as it is and answers 200 or
    500.  It answers 500 only when [min] is present and does not read as a
    number, and it does so whenever such a [min] is an ASCII text;
    when [min] is absent or reads as a number it answers 200 with
    [filter_items] applied to the inventory, the parsed [min] (when
    present) and the [category] parameter (when present). *)
Theorem search_items_fails_only_on_malformed_min
  (rnd : nat -> float) (a : list (string * string)) (j : option JValue)
  (f : list (string * string)) (p : Process) :
  snd (serve rnd (mkRequest GET_items_search a j f) p) = p /\
  (status (fst (serve rnd (mkRequest GET_items_search a j f) p)) = 200 \/
   status (fst (serve rnd (mkRequest GET_items_search a j f) p)) = 500) /\
  (status (fst (serve rnd (mkRequest GET_items_search a j f) p)) = 500 ->
   exists s, assoc "min" a = Some s /\ PyFloat.of_str s = None) /\
  (forall s,
     assoc "min" a = Some s -> PyStr.is_ascii s = true -> PyFloat.of_str s = None ->
     fst (serve rnd (mkRequest GET_items_search a j f) p)
     = mkResponse ServerErrorPage 500) /\
  (assoc "min" a = None ->
   fst (serve rnd (mkRequest GET_items_search a j f) p)
   = mkResponse (Json (JList (items_to_dicts
       (filter_items (inventory p) None (assoc "category" a))))) 200) /\
  (forall s x,
     assoc "min" a = Some s -> PyFloat.of_str s = Some x ->
     fst (serve rnd (mkRequest GET_items_search a j f) p)
     = mkResponse (Json (JList (items_to_dicts
         (filter_items (inventory p) (Some x) (assoc "category" a))))) 200).
Proof.
  rewrite search_items_eval.
  destruct (assoc "min" a) as [s|]; [destruct (PyFloat.of_str s) as [x|] eqn:E|]; cbn.
  - split; [reflexivity|]. split; [now left|]. split; [discriminate|]. split; [|split].
    + intros s' [= <-] _ H. congruence.
    + discriminate.
    + intros s' y [= <-] H. congruence.
  - split; [reflexivity|]. split; [now right|]. split; [intros _; now exists s|].
    split; [|split].
    + reflexivity.
    + discriminate.
    + intros s' y [= <-] H. congruence.
  - split; [reflexivity|]. split; [now left|]. split; [discriminate|]. split; [|split].
    + discriminate.
    + reflexivity.
    + discriminate.
Qed.

Lemma filter_items_min (items : list Item) (x : float) :
  filter_items items (Some x) None = filter (fun i => (x <=? price i)%float) items.
Proof.
  cbn [filter_items app]. apply filter_ext. intros i. cbn [forallb].
  now rewrite andb_true_r.
Qed.

Lemma filter_items_cat (items : list Item) (c : string) :
  filter_items items None (Some c)
  = filter (fun i => (PyStr.lower (category i) =? PyStr.lower c)%string) items.
Proof.
  cbn [filter_items app]. apply filter_ext. intros i. cbn [forallb].
  now rewrite andb_true_r.
Qed.

(** X3.  For a [min] that reads as a number, and no [category],
    GET /items/expensive and GET /items/search give the same response. *)
Theorem expensive_and_search_agree
  (rnd : nat -> float) (a : list (string * string)) (j : option JValue)
  (f : list (string * string)) (p : Process) (s : string) (x : float) :
  assoc "min" a = Some s -> PyFloat.of_str s = Some x ->
  assoc "category" a = None ->
  serve rnd (mkRequest GET_items_expensive a j f) p
  = serve rnd (mkRequest GET_items_search a j f) p.
Proof.
  intros Hm Hx Hc.
  rewrite search_items_eval, Hm, Hx, Hc, filter_items_min.
  rewrite get_expensive_always_answers_aux. unfold threshold. now rewrite Hm, Hx.
Qed.

Lemma expensive_and_search_agree_witness :
  serve no_draw (mkRequest GET_items_expensive [("min", "24.5")]%string None []) startup
  = serve no_draw (mkRequest GET_items_search [("min", "24.5")]%string None []) startup.
Proof.
  apply (expensive_and_search_agree no_draw [("min", "24.5")]%string None [] startup
           "24.5" 24.5).
  - reflexivity.
  - vm_compute; reflexivity.
  - reflexivity.
Defined.

Lemma equal_ignoring_case_lower (s t : string) :
  PyStr.equal_ignoring_case s t = true <-> PyStr.lower s = PyStr.lower t.
Proof. rewrite <- lower_eqb. apply String.eqb_eq. Qed.

Lemma filter_items_category_ext (items : list Item) (m : option float) (c1 c2 : string) :
  PyStr.lower c1 = PyStr.lower c2 ->
  filter_items items m (Some c1) = filter_items items m (Some c2).
Proof.
  intros H. unfold filter_items. rewrite H. reflexivity.
Qed.

(** X4.  Two searches with the same [min] whose categories are equal up
    to case give the same response, in every state. *)
Theorem search_items_ignores_case_of_category
  (rnd : nat -> float) (a1 a2 : list (string * string)) (j : option JValue)
  (f : list (string * string)) (p : Process) (c1 c2 : string) :
  assoc "min" a1 = assoc "min" a2 ->
  assoc "category" a1 = Some c1 -> assoc "category" a2 = Some c2 ->
  PyStr.equal_ignoring_case c1 c2 = true ->
  serve rnd (mkRequest GET_items_search a1 j f) p
  = serve rnd (mkRequest GET_items_search a2 j f) p.
Proof.
  intros Hm H1 H2 Hc. apply equal_ignoring_case_lower in Hc.
  rewrite !search_items_eval, Hm, H1, H2.
  destruct (assoc "min" a2) as [s|]; [destruct (PyFloat.of_str s)|];
    rewrite ?(filter_items_category_ext _ _ c1 c2 Hc); reflexivity.
Qed.

Lemma search_items_ignores_case_of_category_witness :
  serve no_draw (mkRequest GET_items_search [("category", "Furniture")]%string None []) startup
  = serve no_draw (mkRequest GET_items_search [("category", "furniture")]%string None []) startup.
Proof.
  apply (search_items_ignores_case_of_category no_draw
           [("category", "Furniture")]%string [("category", "furniture")]%string
           None [] startup "Furniture" "furniture");
    reflexivity.
Defined.

(** X5.  The inventory's queries return what [filter_items] returns on
    its items: [by_category] with the category filter alone, [expensive]
    with the price filter alone, [all] with no filter; none of them
    changes the state. *)
Theorem inventory_queries_agree_with_filter_items
  (p : Process) (c : string) (m : float) :
  by_category c p = (Ok (filter_items (inventory p) None (Some c)), p) /\
  expensive m p = (Ok (filter_items (inventory p) (Some m) None), p) /\
  all p = (Ok (filter_items (inventory p) None None), p).
Proof.
  rewrite filter_items_min, filter_items_cat. repeat split.
Qed.

(** ** What a request does to the process *)

Lemma create_item_not_dict (req : Request) (p : Process) :
  (forall d, payload req <> JDict d) -> create_item req p = (Raise AttributeError, p).
Proof.
  intros H. unfold create_item, bind, lift.
  destruct (payload req); try reflexivity. now destruct (H d).
Qed.

(** A request either appends the item it answers with, under status 201,
    or leaves the process as it is, under another status. *)
Lemma serve_outcome (rnd : nat -> float) (req : Request) (p : Process) :
  (exists n x c,
     endpoint req = POST_items /\
     serve rnd req p
     = (mkResponse
          (Json (to_dict (mkItem (PyStr.strip n) x (PyStr.strip c) (_id_seq p)))) 201,
        mkProcess (_id_seq p + 1)
          (inventory p ++ [mkItem (PyStr.strip n) x (PyStr.strip c) (_id_seq p)])))
  \/ (status (fst (serve rnd req p)) <> 201 /\ snd (serve rnd req p) = p).
Proof.
  destruct req as [e a j f]. destruct e.
  - right. split; [discriminate|reflexivity].
  - right. split; [discriminate|reflexivity].
  - right. rewrite get_expensive_always_answers_aux. split; [discriminate|reflexivity].
  - right. rewrite search_items_eval.
    destruct (assoc "min" a) as [s|]; [destruct (PyFloat.of_str s)|];
      (split; [discriminate|reflexivity]).
  - rewrite serve_post. unfold respond.
    destruct (payload (mkRequest POST_items a j f)) as [ |b|z|x|s|l|d] eqn:E;
      try (right; rewrite create_item_not_dict
             by (intros d'; rewrite E; discriminate);
           split; [discriminate|reflexivity]).
    rewrite (create_item_on_dict _ p d E).
    destruct (_ || _); [right; split; [discriminate|reflexivity]|].
    destruct (float_ (field d "price")) as [x|];
      [|right; split; [discriminate|reflexivity]].
    destruct (field d "name") as [ | | | |n| | ];
      try (right; split; [discriminate|reflexivity]).
    destruct (field d "category") as [ | | | |c| | ];
      try (right; split; [discriminate|reflexivity]).
    left. exists n, x, c. split; reflexivity.
  - right. split; [discriminate|reflexivity].
Qed.

(** X6.  A request changes the process only by creating an item: either
    it is a POST /items answered 201, whose body is the created item, which
    takes the next id and is appended while the id sequence advances by
    one; or its status is not 201 and the state is exactly as before. *)
Theorem only_a_created_item_changes_the_process
  (rnd : nat -> float) (req : Request) (p : Process) :
  (status (fst (serve rnd req p)) = 201 /\ endpoint req = POST_items /\
   exists item,
     id item = _id_seq p /\
     body (fst (serve rnd req p)) = Json (to_dict item) /\
     snd (serve rnd req p) = mkProcess (_id_seq p + 1) (inventory p ++ [item]))
  \/ (status (fst (serve rnd req p)) <> 201 /\ snd (serve rnd req p) = p).
Proof.
  destruct (serve_outcome rnd req p) as [(n & x & c & He & E)|H]; [left|now right].
  rewrite E. split; [reflexivity|]. split; [exact He|].
  eexists. split; [|split; reflexivity]. reflexivity.
Qed.

(** X7.  After a request answered 201, GET /items lists the items that
    were there before, in the same order, followed by the item the 201
    response carried. *)
Theorem created_item_is_listed_last
  (rnd rnd' : nat -> float) (req : Request) (p : Process)
  (a : list (string * string)) (j : option JValue) (f : list (string * string)) :
  status (fst (serve rnd req p)) = 201 ->
  exists v,
    body (fst (serve rnd req p)) = Json v /\
    fst (serve rnd' (mkRequest GET_items a j f) (snd (serve rnd req p)))
    = mkResponse (Json (JList (items_to_dicts (inventory p) ++ [v]))) 200.
Proof.
  intros H.
  destruct (serve_outcome rnd req p) as [(n & x & c & He & E)|[H' _]]; [|contradiction].
  rewrite E. eexists. split; [reflexivity|].
  unfold serve, respond, get_items, bind, all, ret, jsonify. cbn [endpoint fst snd inventory].
  unfold items_to_dicts. rewrite map_app. reflexivity.
Qed.

Lemma created_item_is_listed_last_witness :
  exists v,
    body (fst (serve no_draw
                 (post_json (JDict [("name", JStr "Pen"); ("price", JStr "1.5");
                                    ("category", JStr "stationery")]%string)) startup))
    = Json v /\
    fst (serve no_draw (mkRequest GET_items [] None [])
           (snd (serve no_draw
                   (post_json (JDict [("name", JStr "Pen"); ("price", JStr "1.5");
                                      ("category", JStr "stationery")]%string)) startup)))
    = mkResponse (Json (JList (items_to_dicts (inventory startup) ++ [v]))) 200.
Proof.
  apply (created_item_is_listed_last no_draw no_draw
           (post_json (JDict [("name", JStr "Pen"); ("price", JStr "1.5");
                              ("category", JStr "stationery")]%string)) startup [] None []).
  vm_compute; reflexivity.
Defined.

(** ** Outcomes of POST /items *)

Lemma strip_text (v : JValue) : isinstance_str v = true -> exists s, strip v = Ok s.
Proof. destruct v; try discriminate. intros _. eexists. reflexivity. Qed.

Lemma strip_not_text (v : JValue) : isinstance_str v = false -> strip v = Raise AttributeError.
Proof. destruct v; try discriminate; reflexivity. Qed.

(** X8.  POST /items answers 500 only in two situations: the body
    resolves to something that is not a dictionary, or it is a dictionary
    with a text name and a truthy price whose category is truthy but not
    a text.  It does answer 500 in the first situation, and in the
    second whenever the price converts to a number. *)
Theorem create_item_server_error_cases
  (rnd : nat -> float) (a : list (string * string)) (j : option JValue)
  (f : list (string * string)) (p : Process) :
  (status (fst (serve rnd (mkRequest POST_items a j f) p)) = 500 ->
   (forall d, payload (mkRequest POST_items a j f) <> JDict d) \/
   (exists d,
      payload (mkRequest POST_items a j f) = JDict d /\
      isinstance_str (field d "name") = true /\
      truthy (field d "category") = true /\ isinstance_str (field d "category") = false /\
      truthy (field d "price") = true)) /\
  ((forall d, payload (mkRequest POST_items a j f) <> JDict d) ->
   serve rnd (mkRequest POST_items a j f) p = (mkResponse ServerErrorPage 500, p)) /\
  (forall d x,
     payload (mkRequest POST_items a j f) = JDict d ->
     isinstance_str (field d "name") = true ->
     truthy (field d "category") = true -> isinstance_str (field d "category") = false ->
     truthy (field d "price") = true -> float_ (field d "price") = Ok x ->
     serve rnd (mkRequest POST_items a j f) p = (mkResponse ServerErrorPage 500, p)).
Proof.
  rewrite serve_post. unfold respond. split; [|split].
  - destruct (payload (mkRequest POST_items a j f)) as [ |b|z|x|s|l|d] eqn:E;
      try (intros _; left; intros d'; discriminate).
    rewrite (create_item_on_dict _ p d E).
    destruct (isinstance_str (field d "name")) eqn:Hn;
    destruct (truthy (field d "category")) eqn:Hc;
    destruct (truthy (field d "price")) eqn:Hp; cbn [negb orb]; try discriminate.
    destruct (float_ (field d "price")) as [x|e]; [|discriminate].
    destruct (strip_text _ Hn) as [n ->].
    destruct (isinstance_str (field d "category")) eqn:Hs.
    + destruct (strip_text _ Hs) as [c ->]. discriminate.
    + intros _. right. exists d. repeat split; assumption.
  - intros H. now rewrite create_item_not_dict.
  - intros d x E Hn Hc Hs Hp Hx.
    rewrite (create_item_on_dict _ p d E), Hn, Hc, Hp, Hx. cbn [negb orb].
    destruct (strip_text _ Hn) as [n ->]. now rewrite (strip_not_text _ Hs).
Qed.

Lemma create_item_depends_on_payload (r1 r2 : Request) (p : Process) :
  payload r1 = payload r2 -> create_item r1 p = create_item r2 p.
Proof. intros H. unfold create_item. now rewrite H. Qed.

(** X9.  A JSON body that is falsy (null, false, 0, 0.0, the empty text,
    list or object) is treated as if there were no JSON body: the form
    fields are used. *)
Theorem create_item_falsy_json_uses_form
  (rnd : nat -> float) (a : list (string * string)) (v : JValue)
  (f : list (string * string)) (p : Process) :
  truthy v = false ->
  serve rnd (mkRequest POST_items a (Some v) f) p
  = serve rnd (mkRequest POST_items a None f) p.
Proof.
  intros H. rewrite !serve_post. unfold respond.
  rewrite (create_item_depends_on_payload _ (mkRequest POST_items a None f)); [reflexivity|].
  unfold payload. cbn [json]. rewrite H. reflexivity.
Qed.

Lemma create_item_falsy_json_uses_form_witness :
  serve no_draw
    (mkRequest POST_items [] (Some (JDict []))
       [("name", "Pen"); ("price", "1.5"); ("category", "stationery")]%string) startup
  = serve no_draw
      (mkRequest POST_items [] None
         [("name", "Pen"); ("price", "1.5"); ("category", "stationery")]%string) startup.
Proof.
  apply (create_item_falsy_json_uses_form no_draw [] (JDict [])
           [("name", "Pen"); ("price", "1.5"); ("category", "stationery")]%string startup).
  reflexivity.
Defined.

Lemma of_str_empty : PyFloat.of_str "" = None.
Proof. vm_compute; reflexivity. Qed.

(** X10.  With a body that is not JSON, POST /items answers 201 only when
    the form has a name, a non-empty category and a non-empty price.  When
    it has them and the price reads as a number, the item is created with
    that price and the next id, and with the name and category stripped
    (stated for ASCII texts); when the price is an ASCII text that does
    not read as a number, the answer is 400 with the message "Price must
    be a number" and nothing changes. *)
Theorem create_item_from_form
  (rnd : nat -> float) (a : list (string * string)) (f : list (string * string))
  (p : Process) :
  (status (fst (serve rnd (mkRequest POST_items a None f) p)) = 201 ->
   exists n c v,
     assoc "name" f = Some n /\ assoc "category" f = Some c /\ c <> ""%string /\
     assoc "price" f = Some v /\ v <> ""%string) /\
  (forall n c v x,
     assoc "name" f = Some n -> assoc "category" f = Some c -> c <> ""%string ->
     assoc "price" f = Some v -> PyFloat.of_str v = Some x ->
     exists n' c' : string,
       serve rnd (mkRequest POST_items a None f) p
       = (mkResponse
            (Json (JDict [("name", JStr n'); ("price", JFloat x);
                          ("category", JStr c'); ("id", JInt (_id_seq p))]%string)) 201,
          mkProcess (_id_seq p + 1) (inventory p ++ [mkItem n' x c' (_id_seq p)])) /\
       (PyStr.is_ascii n = true -> n' = PyStr.strip n) /\
       (PyStr.is_ascii c = true -> c' = PyStr.strip c)) /\
  (forall n c v,
     assoc "name" f = Some n -> assoc "category" f = Some c -> c <> ""%string ->
     assoc "price" f = Some v -> v <> ""%string ->
     PyStr.is_ascii v = true -> PyFloat.of_str v = None ->
     serve rnd (mkRequest POST_items a None f) p
     = (mkResponse (Json (error_body price_not_number)) 400, p)).
Proof.
  rewrite serve_post. unfold respond.
  rewrite (create_item_on_dict (mkRequest POST_items a None f) p
             (map (fun kv => (fst kv, JStr (snd kv))) f) eq_refl).
  rewrite !field_form.
  destruct (assoc "name" f) as [n|];
    [|split; [discriminate|split; intros; discriminate]].
  destruct (assoc "category" f) as [c|];
    [|split; [discriminate|split; intros; discriminate]].
  cbn [isinstance_str truthy negb orb strip float_].
  destruct c as [|c0 c'].
  { split; [discriminate|split].
    - intros ? ? ? ? _ [= <-] H. now destruct H.
    - intros ? ? ? _ [= <-] H. now destruct H. }
  cbn [String.eqb negb orb].
  destruct (assoc "price" f) as [v|];
    [|split; [discriminate|split; intros; discriminate]].
  cbn [isinstance_str truthy negb orb strip float_].
  destruct v as [|v0 v'].
  { split; [discriminate|split].
    - intros ? ? ? ? _ _ _ [= <-] H. rewrite of_str_empty in H. discriminate.
    - intros ? ? ? _ _ _ [= <-] H. now destruct H. }
  cbn [String.eqb negb orb].
  destruct (PyFloat.of_str (String v0 v')) as [x|] eqn:Hx.
  - split; [|split].
    + intros _. exists n, (String c0 c'), (String v0 v'). repeat split; discriminate.
    + intros n' c'' v'' x' [= <-] [= <-] _ [= <-] H. rewrite Hx in H.
      injection H as <-. exists (PyStr.strip n), (PyStr.strip (String c0 c')).
      split; [reflexivity|]. split; intros _; reflexivity.
    + intros n' c'' v'' _ _ _ [= <-] _ _ H. congruence.
  - split; [discriminate|split].
    + intros n' c'' v'' x' _ _ _ [= <-] H. congruence.
    + intros n' c'' v'' _ _ _ _ _ _ _. reflexivity.
Qed.

(** ** Discounts outside the range *)

Lemma clamp_zero : PyFloat.max 0 (PyFloat.min 0 100) = 0%float.
Proof. vm_compute; reflexivity. Qed.

Lemma clamp_hundred : PyFloat.max 0 (PyFloat.min 100 100) = 100%float.
Proof. vm_compute; reflexivity. Qed.

Lemma clamp_nan (p : float) :
  PyFloat.is_nan p = true -> PyFloat.max 0 (PyFloat.min p 100) = 0%float.
Proof.
  unfold PyFloat.is_nan. rewrite eqb_cmp. intros H.
  assert (H0 : cmp p 0 = None).
  { destruct (cmp p 0) as [c|] eqn:E; [|reflexivity].
    rewrite cmp_refl in H by (rewrite E; discriminate). discriminate. }
  rewrite clamp_cases. pose proof (position p) as P. rewrite H0 in *.
  inversion P. reflexivity.
Qed.

(** X11.  A percent below 0, or not a number, discounts like 0; a
    percent above 100 discounts like 100. *)
Theorem apply_discount_out_of_range (item : Item) (percent : float) :
  ((percent <? 0)%float = true ->
   apply_discount item percent = apply_discount item 0) /\
  ((100 <? percent)%float = true ->
   apply_discount item percent = apply_discount item 100) /\
  (PyFloat.is_nan percent = true ->
   apply_discount item percent = apply_discount item 0).
Proof.
  unfold apply_discount. rewrite clamp_zero, clamp_hundred.
  destruct (clamp_clamped percent) as (_ & _ & Hlow & Hhigh & _).
  repeat split; intros H.
  - now rewrite (Hlow H).
  - now rewrite (Hhigh H).
  - now rewrite (clamp_nan percent H).
Qed.

(** ** Stripping, again *)

Lemma lstrip_fixed (s : string) :
  PyStr.starts_with_space s = false -> PyStr.lstrip_by PyStr.is_space s = s.
Proof. destruct s as [|c s]; cbn; [reflexivity|]. now intros ->. Qed.

Lemma rstrip_fixed (s : string) :
  PyStr.ends_with_space s = false -> PyStr.rstrip_by PyStr.is_space s = s.
Proof.
  induction s as [|c s IH]; [reflexivity|].
  destruct s as [|c' s'].
  - cbn. now intros ->.
  - intros H. change (PyStr.ends_with_space (String c' s') = false) in H.
    cbn [PyStr.rstrip_by]. cbn [PyStr.rstrip_by] in IH. rewrite (IH H). reflexivity.
Qed.

Lemma strip_tidy (s : string) : tidy (PyStr.strip s) = true.
Proof.
  destruct (strip_trimmed s) as (l & r & _ & _ & _ & H1 & H2).
  unfold tidy. now rewrite H1, H2.
Qed.

Lemma tidy_fixed (s : string) : tidy s = true -> PyStr.strip s = s.
Proof.
  unfold tidy. rewrite andb_true_iff, !negb_true_iff. intros [H1 H2].
  unfold PyStr.strip. rewrite (lstrip_fixed s H1). now apply rstrip_fixed.
Qed.

Lemma strip_all_space (s : string) : PyStr.all_space s = true -> PyStr.strip s = ""%string.
Proof.
  unfold PyStr.strip. induction s as [|c s IH]; [reflexivity|].
  cbn. destruct (PyStr.is_space c); [exact IH|discriminate].
Qed.

(** X12.  A created item keeps an ASCII name or category that has no
    whitespace at its ends exactly as supplied; a name or category made
    of whitespace only passes validation and is stored as the empty
    text. *)
Theorem create_item_normalises_texts
  (rnd : nat -> float) (a : list (string * string)) (j : option JValue)
  (f : list (string * string)) (p : Process)
  (d : list (string * JValue)) (n c : string) (x : float) :
  payload (mkRequest POST_items a j f) = JDict d ->
  field d "name" = JStr n -> PyStr.is_ascii n = true ->
  field d "category" = JStr c -> c <> ""%string -> PyStr.is_ascii c = true ->
  truthy (field d "price") = true -> float_ (field d "price") = Ok x ->
  exists item,
    snd (serve rnd (mkRequest POST_items a j f) p)
    = mkProcess (_id_seq p + 1) (inventory p ++ [item]) /\
    (tidy n = true -> name item = n) /\
    (tidy c = true -> category item = c) /\
    (PyStr.all_space n = true -> name item = ""%string) /\
    (PyStr.all_space c = true -> category item = ""%string).
Proof.
  intros Hd Hn _ Hc Hne _ Ht Hx.
  rewrite (post_created rnd a j f p d Hd n c x Hn Hc Hne Ht Hx).
  eexists. split; [reflexivity|]. cbn [name category].
  repeat split; first [apply tidy_fixed | apply strip_all_space].
Qed.

Lemma create_item_normalises_texts_witness :
  exists item,
    snd (serve no_draw
           (post_json (JDict [("name", JStr "  "); ("price", JInt 3);
                              ("category", JStr "toys")]%string)) startup)
    = mkProcess (_id_seq startup + 1) (inventory startup ++ [item]) /\
    (tidy "  " = true -> name item = "  "%string) /\
    (tidy "toys" = true -> category item = "toys"%string) /\
    (PyStr.all_space "  " = true -> name item = ""%string) /\
    (PyStr.all_space "toys" = true -> category item = ""%string).
Proof.
  apply (create_item_normalises_texts no_draw []
           (Some (JDict [("name", JStr "  "); ("price", JInt 3);
                         ("category", JStr "toys")]%string)) [] startup
           [("name", JStr "  "); ("price", JInt 3); ("category", JStr "toys")]%string
           "  " "toys" 3).
  - reflexivity.
  - reflexivity.
  - reflexivity.
  - reflexivity.
  - discriminate.
  - reflexivity.
  - reflexivity.
  - vm_compute; reflexivity.
Defined.

(** X13.  If no stored name or category starts or ends with whitespace,
    that stays so after any sequence of requests. *)
Theorem stored_texts_have_no_surrounding_space
  (trace : list ((nat -> float) * Request)) :
  forall p,
    Forall (fun i => tidy (name i) = true /\ tidy (category i) = true) (inventory p) ->
    Forall (fun i => tidy (name i) = true /\ tidy (category i) = true)
      (inventory (run trace p)).
Proof.
  induction trace as [|[rnd req] trace IH]; intros p H; cbn [run]; [exact H|].
  apply IH.
  destruct (serve_outcome rnd req p) as [(n & x & c & _ & E)|[_ E]]; rewrite E; [|exact H].
  cbn [snd inventory]. apply Forall_app. split; [exact H|].
  constructor; [|constructor]. cbn [name category]. split; apply strip_tidy.
Qed.

Lemma stored_texts_have_no_surrounding_space_witness :
  Forall (fun i => tidy (name i) = true /\ tidy (category i) = true)
    (inventory
       (run [(no_draw,
              post_json (JDict [("name", JStr "  Pen "); ("price", JInt 2);
                                ("category", JStr " stationery")]%string))] startup)).
Proof.
  apply (stored_texts_have_no_surrounding_space
           [(no_draw,
             post_json (JDict [("name", JStr "  Pen "); ("price", JInt 2);
                               ("category", JStr " stationery")]%string))] startup).
  repeat constructor.
Defined.

(** ** Matching up to case *)

(** X14.  An item that [filter_items] returns for a category, both
    categories being ASCII texts, has a category equal up to case to the
    one asked for, and [fetch_tax_rate] gives it the rate of the category
    asked for. *)
Theorem items_of_a_category_share_its_tax_rate
  (items : list Item) (m : option float) (c : string) (i : Item) :
  PyStr.is_ascii c = true -> PyStr.is_ascii (category i) = true ->
  In i (filter_items items m (Some c)) ->
  PyStr.equal_ignoring_case (category i) c = true /\
  fetch_tax_rate (category i) = fetch_tax_rate c.
Proof.
  intros _ _ H.
  assert (E : (PyStr.lower (category i) =? PyStr.lower c)%string = true).
  { destruct m as [x|]; cbn [filter_items app] in H; apply filter_In in H;
      destruct H as [_ H]; cbn [forallb] in H;
      repeat (apply andb_true_iff in H; destruct H as [? H]); assumption. }
  split; [now rewrite <- lower_eqb|].
  apply String.eqb_eq in E. unfold fetch_tax_rate. now rewrite E.
Qed.

Lemma items_of_a_category_share_its_tax_rate_witness :
  PyStr.equal_ignoring_case "furniture" "FURNITURE" = true /\
  fetch_tax_rate "furniture" = fetch_tax_rate "FURNITURE".
Proof.
  apply (items_of_a_category_share_its_tax_rate (inventory startup) None "FURNITURE"
           (mkItem "Office Chair" 189 "furniture" 4)).
  - reflexivity.
  - reflexivity.
  - vm_compute. left. reflexivity.
Defined.

(** ** Composing filters *)

Lemma filter_items_as_filter (items : list Item) (m : option float) (c : option string) :
  filter_items items m c
  = filter (fun i => price_at_least m i && category_matches c i) items.
Proof.
  destruct m as [x|], c as [s|]; cbn.
  - apply filter_ext. intros i. unfold PyFloat.geb. now rewrite lower_eqb, andb_true_r.
  - apply filter_ext. intros i. unfold PyFloat.geb. now rewrite !andb_true_r.
  - apply filter_ext. intros i. now rewrite lower_eqb, andb_true_r.
  - symmetry. apply filter_all.
Qed.

Lemma filter_twice {A : Type} (g h : A -> bool) (l : list A) :
  filter h (filter g l) = filter (fun x => g x && h x) l.
Proof.
  induction l as [|x l IH]; cbn; [reflexivity|].
  destruct (g x); cbn; [destruct (h x)|]; now rewrite IH.
Qed.

(** X15.  Filtering by price and then by category, or by category and
    then by price, is filtering by both at once; filtering twice with the
    same filters changes nothing; the result is never longer than the
    input and holds only items of the input. *)
Theorem filter_items_composes (items : list Item) (m : option float) (c : option string) :
  filter_items (filter_items items m None) None c = filter_items items m c /\
  filter_items (filter_items items None c) m None = filter_items items m c /\
  filter_items (filter_items items m c) m c = filter_items items m c /\
  (List.length (filter_items items m c) <= List.length items)%nat /\
  incl (filter_items items m c) items.
Proof.
  rewrite !filter_items_as_filter, !filter_twice. repeat split.
  - apply filter_ext. intros i. cbn. now rewrite andb_true_r.
  - apply filter_ext. intros i. cbn.
    destruct (price_at_least m i), (category_matches c i); reflexivity.
  - apply filter_ext. intros i.
    destruct (price_at_least m i), (category_matches c i); reflexivity.
  - apply filter_length_le.
  - apply incl_filter.
Qed.

(** ** Not a number *)

Lemma leb_nan_l (x : float) : (nan <=? x)%float = false.
Proof. rewrite leb_spec. reflexivity. Qed.

Lemma leb_nan_r (x y : float) : PyFloat.is_nan y = true -> (x <=? y)%float = false.
Proof.
  unfold PyFloat.is_nan. rewrite eqb_spec, leb_spec.
  destruct (Prim2SF y) as [s|s| |s m e]; cbn.
  - discriminate.
  - destruct s; discriminate.
  - intros _. now destruct (Prim2SF x).
  - destruct s; rewrite Z.compare_refl;
      change (Pos.compare_cont Eq m m) with (Pos.compare m m);
      rewrite Pos.compare_refl; discriminate.
Qed.

Lemma filter_none {A : Type} (g : A -> bool) (l : list A) :
  (forall x, g x = false) -> filter g l = [].
Proof. intros H. induction l as [|x l IH]; cbn; [reflexivity|]. now rewrite H. Qed.

(** X16.  Not-a-number matches nothing: with a NaN threshold
    [filter_items] returns no item, an item whose price is NaN passes no
    price filter, and GET /items/expensive?min=nan, where [nan] reads as a
    number, answers 200 with the empty list. *)
Theorem nan_matches_no_item
  (rnd : nat -> float) (j : option JValue) (f : list (string * string))
  (p : Process) (items : list Item) (c : option string) :
  filter_items items (Some nan) c = [] /\
  (forall m i, PyFloat.is_nan (price i) = true -> ~ In i (filter_items items (Some m) c)) /\
  PyFloat.of_str "nan" = Some nan /\
  serve rnd (mkRequest GET_items_expensive [("min", "nan")]%string j f) p
  = (mkResponse (Json (JList [])) 200, p).
Proof.
  split; [|split; [|split]].
  - rewrite filter_items_as_filter. apply filter_none. intros i. cbn.
    now rewrite leb_nan_l.
  - intros m i H. rewrite filter_items_as_filter, filter_In. cbn.
    rewrite (leb_nan_r m (price i) H). cbn. intros [_ H']. discriminate.
  - vm_compute; reflexivity.
  - rewrite get_expensive_always_answers_aux.
    replace (threshold [("min", "nan")]%string) with nan by (vm_compute; reflexivity).
    rewrite filter_none by (intros i; apply leb_nan_l). reflexivity.
Qed.

(** ** Traces from any state *)

Lemma zrange_app (n m : nat) :
  forall a, zrange a (n + m) = zrange a n ++ zrange (a + Z.of_nat n) m.
Proof.
  induction n as [|n IH]; intros a.
  - cbn. now rewrite Z.add_0_r.
  - cbn [Nat.add zrange app]. rewrite IH. do 3 f_equal. lia.
Qed.

(** X17.  From any state, a sequence of requests only appends items: the
    inventory before is a prefix of the inventory after, the appended
    items carry consecutive ids starting at the value of the id sequence
    before, the sequence advances by exactly their number, and there are
    at most as many of them as requests. *)
Theorem run_appends_consecutive_ids (trace : list ((nat -> float) * Request)) :
  forall p,
  exists later,
    inventory (run trace p) = inventory p ++ later /\
    _id_seq (run trace p) = _id_seq p + Z.of_nat (List.length later) /\
    map id later = zrange (_id_seq p) (List.length later) /\
    (List.length later <= List.length trace)%nat.
Proof.
  induction trace as [|[rnd req] trace IH]; intros p; cbn [run].
  - exists []. cbn. rewrite app_nil_r, Z.add_0_r. repeat split. lia.
  - destruct (IH (snd (serve rnd req p))) as (later & Hi & Hs & Hm & Hl).
    destruct (serve_outcome rnd req p) as [(n & x & c & _ & E)|[_ E]]; rewrite E in *.
    + cbn [snd inventory _id_seq] in *.
      exists (mkItem (PyStr.strip n) x (PyStr.strip c) (_id_seq p) :: later).
      rewrite Hi, Hs, <- app_assoc. cbn [app map List.length id zrange].
      rewrite Hm. repeat split; try lia.
    + exists later. repeat split; auto. cbn [List.length]. lia.
Qed.

(** ** The listing *)

Lemma items_to_dicts_injective (l1 : list Item) :
  forall l2, items_to_dicts l1 = items_to_dicts l2 -> l1 = l2.
Proof.
  induction l1 as [|i l1 IH]; intros [|i' l2] H; unfold items_to_dicts in H;
    cbn [map] in H; try discriminate; [reflexivity|].
  injection H as Hn Hp Hc Hi Hl. f_equal; [|now apply IH].
  destruct i, i'. cbn in *. congruence.
Qed.

(** X18.  GET /items answers 200 with one object per item, changes
    nothing, and shows the whole inventory: two states give the same
    response exactly when their inventories are equal. *)
Theorem get_items_shows_the_whole_inventory
  (rnd rnd' : nat -> float) (a a' : list (string * string)) (j j' : option JValue)
  (f f' : list (string * string)) (p p' : Process) :
  snd (serve rnd (mkRequest GET_items a j f) p) = p /\
  fst (serve rnd (mkRequest GET_items a j f) p) = mkResponse (Json (listing p)) 200 /\
  (listing p = listing p' <-> inventory p = inventory p') /\
  (fst (serve rnd (mkRequest GET_items a j f) p)
   = fst (serve rnd' (mkRequest GET_items a' j' f') p') <->
   inventory p = inventory p').
Proof.
  assert (L : listing p = listing p' <-> inventory p = inventory p').
  { unfold listing. split; [|now intros ->].
    intros [= H]. now apply items_to_dicts_injective. }
  split; [reflexivity|]. split; [reflexivity|]. split; [exact L|].
  change (fst (serve rnd (mkRequest GET_items a j f) p))
    with (mkResponse (Json (listing p)) 200).
  change (fst (serve rnd' (mkRequest GET_items a' j' f') p'))
    with (mkResponse (Json (listing p')) 200).
  split; intros H.
  - apply L. unfold listing. injection H as H. f_equal. exact H.
  - apply L in H. now rewrite H.
Qed.

(** ** Quotes and draws *)

Lemma gather_fields (rnd : nat -> float) (items : list Item) :
  forall k,
    map (fun q => get q "item") (gather rnd k items)
    = map (fun i => Ok (to_dict i)) items /\
    map (fun q => get q "tax_rate") (gather rnd k items)
    = map (fun i => Ok (JFloat (fetch_tax_rate (category i)))) items /\
    map (fun q => get q "taxed_price") (gather rnd k items)
    = map (fun i => Ok (JFloat
             (PyFloat.round (price i * (1 + fetch_tax_rate (category i)))%float 2))) items.
Proof.
  induction items as [|i items IH]; intros k; cbn [gather map]; [repeat split|].
  destruct (IH (S k)) as (H1 & H2 & H3). rewrite H1, H2, H3. repeat split.
Qed.

(** X19.  The draws reach a quote only through the discount: for two
    sources of draws, GET /async/quotes gives records whose [item],
    [tax_rate] and [taxed_price] agree position by position, and the
    [item] entries are those of GET /items. *)
Theorem quotes_depend_on_draws_only_through_the_discount
  (rnd rnd' : nat -> float) (a : list (string * string)) (j : option JValue)
  (f : list (string * string)) (p : Process) :
  exists quotes quotes',
    serve rnd (mkRequest GET_async_quotes a j f) p
    = (mkResponse (Json (JList quotes)) 200, p) /\
    serve rnd' (mkRequest GET_async_quotes a j f) p
    = (mkResponse (Json (JList quotes')) 200, p) /\
    map (fun q => get q "item") quotes = map (fun v => Ok v) (items_to_dicts (inventory p)) /\
    map (fun q => get q "item") quotes = map (fun q => get q "item") quotes' /\
    map (fun q => get q "tax_rate") quotes = map (fun q => get q "tax_rate") quotes' /\
    map (fun q => get q "taxed_price") quotes = map (fun q => get q "taxed_price") quotes'.
Proof.
  exists (gather rnd 0 (inventory p)), (gather rnd' 0 (inventory p)).
  split; [reflexivity|]. split; [reflexivity|].
  destruct (gather_fields rnd (inventory p) 0%nat) as (H1 & H2 & H3).
  destruct (gather_fields rnd' (inventory p) 0%nat) as (H1' & H2' & H3').
  rewrite H1, H2, H3, H1', H2', H3'. unfold items_to_dicts. rewrite map_map.
  repeat split.
Qed.

(** ** Submitting twice *)

(** X20.  Nothing is deduplicated: the same valid payload posted twice
    creates two items with the same name, price and category and with
    consecutive ids. *)
Theorem create_item_twice_makes_two_items
  (rnd rnd' : nat -> float) (a : list (string * string)) (j : option JValue)
  (f : list (string * string)) (p : Process)
  (d : list (string * JValue)) (n c : string) (x : float) :
  payload (mkRequest POST_items a j f) = JDict d ->
  field d "name" = JStr n ->
  field d "category" = JStr c -> c <> ""%string ->
  truthy (field d "price") = true -> float_ (field d "price") = Ok x ->
  run [(rnd, mkRequest POST_items a j f); (rnd', mkRequest POST_items a j f)] p
  = mkProcess (_id_seq p + 2)
      (inventory p ++ [mkItem (PyStr.strip n) x (PyStr.strip c) (_id_seq p);
                       mkItem (PyStr.strip n) x (PyStr.strip c) (_id_seq p + 1)]).
Proof.
  intros Hd Hn Hc Hne Ht Hx. cbn [run].
  rewrite (post_created rnd a j f p d Hd n c x Hn Hc Hne Ht Hx). cbn [snd].
  rewrite (post_created rnd' a j f _ d Hd n c x Hn Hc Hne Ht Hx).
  cbn [snd _id_seq inventory]. rewrite <- app_assoc. cbn [app]. f_equal. lia.
Qed.

Lemma create_item_twice_makes_two_items_witness :
  run [(no_draw, post_json (JDict [("name", JStr "Pen"); ("price", JStr "1.5");
                                   ("category", JStr "stationery")]%string));
       (no_draw, post_json (JDict [("name", JStr "Pen"); ("price", JStr "1.5");
                                   ("category", JStr "stationery")]%string))] startup
  = mkProcess 8
      (inventory startup ++ [mkItem "Pen" 1.5 "stationery" 6; mkItem "Pen" 1.5 "stationery" 7]).
Proof.
  apply (create_item_twice_makes_two_items no_draw no_draw []
           (Some (JDict [("name", JStr "Pen"); ("price", JStr "1.5");
                         ("category", JStr "stationery")]%string)) [] startup
           [("name", JStr "Pen"); ("price", JStr "1.5");
            ("category", JStr "stationery")]%string "Pen" "stationery" 1.5).
  - reflexivity.
  - reflexivity.
  - reflexivity.
  - discriminate.
  - reflexivity.
  - vm_compute; reflexivity.
Defined.

(** ** Status codes *)

(** X22.  Status codes by route: POST /items answers 201, 400 or 500;
    GET /items/search answers 200 or 500; the other routes always answer
    200; and a response is the server error page exactly when its status
    is 500. *)
Theorem status_codes_by_route (rnd : nat -> float) (req : Request) (p : Process) :
  match endpoint req with
  | POST_items =>
      status (fst (serve rnd req p)) = 201 \/ status (fst (serve rnd req p)) = 400
      \/ status (fst (serve rnd req p)) = 500
  | GET_items_search =>
      status (fst (serve rnd req p)) = 200 \/ status (fst (serve rnd req p)) = 500
  | GET_root | GET_items | GET_items_expensive | GET_async_quotes =>
      status (fst (serve rnd req p)) = 200
  end /\
  (status (fst (serve rnd req p)) = 500 <-> body (fst (serve rnd req p)) = ServerErrorPage).
Proof.
  destruct req as [e a j f]. destruct e; cbn [endpoint].
  - split; [reflexivity|]. split; discriminate.
  - split; [reflexivity|]. split; discriminate.
  - rewrite get_expensive_always_answers_aux. split; [reflexivity|]. split; discriminate.
  - rewrite search_items_eval.
    destruct (assoc "min" a) as [s|]; [destruct (PyFloat.of_str s)|]; cbn;
      (split; [auto|split; first [discriminate|reflexivity]]).
  - rewrite serve_post. unfold respond.
    destruct (payload (mkRequest POST_items a j f)) as [ |b|z|x|s|l|d] eqn:E;
      try (rewrite create_item_not_dict by (intros d'; rewrite E; discriminate);
           cbn; split; [auto|split; reflexivity]).
    rewrite (create_item_on_dict _ p d E).
    destruct (_ || _); [cbn; split; [auto|split; discriminate]|].
    destruct (float_ (field d "price")) as [x|]; [|cbn; split; [auto|split; discriminate]].
    destruct (strip (field d "name")); [|cbn; split; [auto|split; reflexivity]].
    destruct (strip (field d "category")); cbn;
      (split; [auto|split; first [discriminate|reflexivity]]).
  - split; [reflexivity|]. split; discriminate.
Qed.
